(** * nvdiffrast/torch/ops.py: the Python wrappers of the differentiable
    rasterization ops

    [ops.py] holds no numerical kernel.  Every function of the file checks and
    normalises its arguments, chooses one of two autograd stubs, and hands the
    work to the compiled plugin ([_get_plugin().f(...)]).  The development
    below embeds exactly that layer:

    - a Python argument is a [pyobj], so that [isinstance] and [is None]
      tests are real tests;
    - a wrapper is a program [prog A]: a finite tree whose nodes are the
      plugin calls the wrapper performs, in order, and whose leaves are the
      value it returns or the exception it raises itself;
    - the plugin is whatever answers the calls: a [handler].  Nothing is
      assumed about its answers, except where a statement says so.

    [torch.autograd.Function.apply] runs [forward] and keeps its [ctx] for
    the matching [backward]; here [apply] returns the outputs together with
    that saved context, and [backward] is a function of the saved context
    and the incoming gradients.  A tuple of gradients is a record with one
    field per input of [forward], in the order of the source's tuple.

    Mode names are strings, as in the source; [max_mip_level] is [None] or
    an integer; [pos_gradient_boost] is a binary64 float.  The plugin
    loader ([_get_plugin], lines 19-88) and the two log-level functions
    (lines 94-117) are not embedded. *)

From Stdlib Require Import ZArith String List Bool PrimFloat Lia.
Import ListNotations.
Local Open Scope string_scope.
Local Open Scope Z_scope.

(** ** The objects that cross the boundary *)

(** The types the wrappers never look into: torch tensors, the plugin's
    opaque wrapper objects, and the two torch operations [ops.py] itself
    performs on tensors. *)
Class Runtime : Type := {
  Tensor : Type;
  TextureMipWrapper : Type;
  TopologyHashWrapper : Type;
  RasterizeGLStateWrapper : Type;
  WorkBuffer : Type;
  (* [g_pos * pos_gradient_boost], line 481 *)
  tensor_mul : Tensor -> float -> Tensor;
  (* [torch.empty(size=(0, 2), dtype=torch.int32, device='cpu')], line 218 *)
  torch_empty_ranges : Tensor
}.

Section Objects.
Context `{Runtime}.

(** [class RasterizeGLContext]: the three attributes [__init__] sets. *)
Record RasterizeGLContext : Type := mkRasterizeGLContext {
  output_db : bool;
  mode : string;
  cpp_wrapper : RasterizeGLStateWrapper
}.

(** A Python value as far as the wrappers can tell values apart. *)
Inductive pyobj : Type :=
| PyNone
| PyBool (b : bool)
| PyInt (z : Z)
| PyStr (s : string)
| PyTensor (t : Tensor)
| PyTextureMip (m : TextureMipWrapper)
| PyTopologyHash (h : TopologyHashWrapper)
| PyWorkBuffer (w : WorkBuffer)
| PyGLContext (g : RasterizeGLContext).

(** [isinstance(x, torch.Tensor)] *)
Definition isinstance_Tensor (x : pyobj) : bool :=
  match x with PyTensor _ => true | _ => false end.

(** [isinstance(x, _get_plugin().TextureMipWrapper)] *)
Definition isinstance_TextureMipWrapper (x : pyobj) : bool :=
  match x with PyTextureMip _ => true | _ => false end.

(** [isinstance(x, _get_plugin().TopologyHashWrapper)] *)
Definition isinstance_TopologyHashWrapper (x : pyobj) : bool :=
  match x with PyTopologyHash _ => true | _ => false end.

(** [x is not None] *)
Definition is_not_None (x : pyobj) : bool :=
  match x with PyNone => false | _ => true end.

(** ** Plugin calls *)

(** One constructor per plugin entry point [ops.py] calls, with the
    arguments in the order the source passes them.  Arguments are [pyobj]:
    Python passes whatever object the caller gave. *)
Inductive plugin_call : Type :=
| plugin_RasterizeGLStateWrapper (output_db automatic : bool)
| plugin_set_context (w : RasterizeGLStateWrapper)
| plugin_release_context (w : RasterizeGLStateWrapper)
| plugin_rasterize_fwd (w : RasterizeGLStateWrapper) (pos tri : pyobj)
    (resolution : list Z) (ranges : pyobj)
| plugin_rasterize_grad (pos tri out dy : pyobj)
| plugin_rasterize_grad_db (pos tri out dy ddb : pyobj)
| plugin_interpolate_fwd (attr rast tri : pyobj)
| plugin_interpolate_fwd_da (attr rast tri rast_db : pyobj)
    (diff_attrs_all : Z) (diff_attrs_list : list Z)
| plugin_interpolate_grad (attr rast tri dy : pyobj)
| plugin_interpolate_grad_da (attr rast tri dy rast_db dda : pyobj)
    (diff_attrs_all : Z) (diff_attrs_list : list Z)
| plugin_texture_construct_mip (tex : pyobj) (max_mip_level : Z) (cube_mode : bool)
| plugin_texture_fwd (tex uv : pyobj) (filter_mode_enum boundary_mode_enum : Z)
| plugin_texture_fwd_mip (tex uv uv_da mip : pyobj)
    (filter_mode_enum boundary_mode_enum : Z)
| plugin_texture_grad_nearest (tex uv dy : pyobj)
    (filter_mode_enum boundary_mode_enum : Z)
| plugin_texture_grad_linear (tex uv dy : pyobj)
    (filter_mode_enum boundary_mode_enum : Z)
| plugin_texture_grad_linear_mipmap_nearest (tex uv dy uv_da mip : pyobj)
    (filter_mode_enum boundary_mode_enum : Z)
| plugin_texture_grad_linear_mipmap_linear (tex uv dy uv_da mip : pyobj)
    (filter_mode_enum boundary_mode_enum : Z)
| plugin_antialias_construct_topology_hash (tri : pyobj)
| plugin_antialias_fwd (color rast pos tri topology_hash : pyobj)
| plugin_antialias_grad (color rast pos tri dy work_buffer : pyobj).

(** What each call hands back, as the source unpacks it. *)
Definition answer (c : plugin_call) : Type :=
  match c with
  | plugin_RasterizeGLStateWrapper _ _ => RasterizeGLStateWrapper
  | plugin_set_context _ => unit
  | plugin_release_context _ => unit
  | plugin_rasterize_fwd _ _ _ _ _ => (Tensor * Tensor)%type
  | plugin_rasterize_grad _ _ _ _ => Tensor
  | plugin_rasterize_grad_db _ _ _ _ _ => Tensor
  | plugin_interpolate_fwd _ _ _ => (Tensor * Tensor)%type
  | plugin_interpolate_fwd_da _ _ _ _ _ _ => (Tensor * Tensor)%type
  | plugin_interpolate_grad _ _ _ _ => (Tensor * Tensor)%type
  | plugin_interpolate_grad_da _ _ _ _ _ _ _ _ => (Tensor * Tensor * Tensor)%type
  | plugin_texture_construct_mip _ _ _ => TextureMipWrapper
  | plugin_texture_fwd _ _ _ _ => Tensor
  | plugin_texture_fwd_mip _ _ _ _ _ _ => Tensor
  | plugin_texture_grad_nearest _ _ _ _ _ => Tensor
  | plugin_texture_grad_linear _ _ _ _ _ => (Tensor * Tensor)%type
  | plugin_texture_grad_linear_mipmap_nearest _ _ _ _ _ _ _ => (Tensor * Tensor)%type
  | plugin_texture_grad_linear_mipmap_linear _ _ _ _ _ _ _ =>
      (Tensor * Tensor * Tensor)%type
  | plugin_antialias_construct_topology_hash _ => TopologyHashWrapper
  | plugin_antialias_fwd _ _ _ _ _ => (Tensor * WorkBuffer)%type
  | plugin_antialias_grad _ _ _ _ _ _ => (Tensor * Tensor)%type
  end.

(** ** Wrapper programs *)

(** The exceptions in play: the two the wrappers raise themselves (a failed
    [assert], a missing dictionary key), the two [np.asarray] raises on the
    index list of [interpolate], and whatever the plugin raises. *)
Inductive exn : Type :=
| AssertionError
| KeyError (key : string)
| ValueError
| OverflowError
| PluginError (msg : string).

Inductive prog (A : Type) : Type :=
| Ret (a : A)
| Raise (e : exn)
| Vis (c : plugin_call) (k : answer c -> prog A).

Arguments Ret {A} a.
Arguments Raise {A} e.
Arguments Vis {A} c k.

Fixpoint bind {A B : Type} (p : prog A) (f : A -> prog B) : prog B :=
  match p with
  | Ret a => f a
  | Raise e => Raise e
  | Vis c k => Vis c (fun x => bind (k x) f)
  end.

End Objects.

Arguments Ret {_ A} a.
Arguments Raise {_ A} e.
Arguments Vis {_ A} c k.

Declare Scope prog_scope.
Delimit Scope prog_scope with prog.
Notation "x <- p ;; q" := (bind p (fun x => q))
  (at level 61, p at next level, right associativity) : prog_scope.
Notation "' pat <- p ;; q" := (bind p (fun x => match x with pat => q end))
  (at level 61, pat pattern, p at next level, right associativity) : prog_scope.
Notation "p ;; q" := (bind p (fun _ => q))
  (at level 61, right associativity) : prog_scope.
Local Open Scope prog_scope.

Section Wrappers.
Context `{Runtime}.

(** [_get_plugin().f(args)] *)
Definition call (c : plugin_call) : prog (answer c) := Vis c Ret.

(** [assert b] *)
Definition assert (b : bool) : prog unit :=
  if b then Ret tt else Raise AssertionError.

(** [assert x is True or x is False], keeping the flag *)
Definition assert_bool (x : pyobj) : prog bool :=
  match x with PyBool b => Ret b | _ => Raise AssertionError end.

(** ** Running a program against a plugin *)

(** A plugin answers each call with a value or raises.  The answer is a
    function of the call: the same entry point on the same arguments gives
    the same answer. *)
Definition handler : Type := forall c : plugin_call, exn + answer c.

(** The calls performed, in order, and the outcome.  An exception of the
    plugin ends the run: no wrapper catches one. *)
Fixpoint run {A : Type} (h : handler) (p : prog A)
  : list plugin_call * (exn + A) :=
  match p with
  | Ret a => ([], inr a)
  | Raise e => ([], inl e)
  | Vis c k =>
      match h c with
      | inl e => ([c], inl e)
      | inr x => let (t, r) := run h (k x) in (c :: t, r)
      end
  end.

Definition trace {A : Type} (h : handler) (p : prog A) : list plugin_call :=
  fst (run h p).

Definition result {A : Type} (h : handler) (p : prog A) : exn + A :=
  snd (run h p).

(** ** Strings and dictionaries *)

(** [needle in hay] on strings *)
Fixpoint contains (needle hay : string) : bool :=
  match hay with
  | EmptyString => String.prefix needle EmptyString
  | String _ rest => String.prefix needle hay || contains needle rest
  end.

(** [s in [s1, s2, ...]] *)
Definition in_list (s : string) (l : list string) : bool :=
  existsb (String.eqb s) l.

(** [d[key]] on a dictionary literal *)
Fixpoint dict_get (d : list (string * Z)) (key : string) : option Z :=
  match d with
  | [] => None
  | (k, v) :: rest => if String.eqb key k then Some v else dict_get rest key
  end.

Definition subscript (d : list (string * Z)) (key : string) : prog Z :=
  match dict_get d key with
  | Some v => Ret v
  | None => Raise (KeyError key)
  end.

(** ** GL state wrapper (lines 123-156) *)

(** [RasterizeGLContext.__init__], lines 138-142 *)
Definition RasterizeGLContext__init__ (output_db : pyobj) (mode : string)
  : prog RasterizeGLContext :=
  output_db <- assert_bool output_db ;;
  assert (in_list mode ["automatic"; "manual"]) ;;
  w <- call (plugin_RasterizeGLStateWrapper output_db (String.eqb mode "automatic")) ;;
  Ret (mkRasterizeGLContext output_db mode w).

(** [RasterizeGLContext.set_context], lines 148-149 *)
Definition set_context (self : RasterizeGLContext) : prog unit :=
  assert (String.eqb (mode self) "manual") ;;
  call (plugin_set_context (cpp_wrapper self)).

(** [RasterizeGLContext.release_context], lines 155-156 *)
Definition release_context (self : RasterizeGLContext) : prog unit :=
  assert (String.eqb (mode self) "manual") ;;
  call (plugin_release_context (cpp_wrapper self)).

(** ** Rasterize (lines 162-223) *)

(** [ctx.save_for_backward(pos, tri, out)] and [ctx.saved_grad_db]. *)
Record rasterize_ctx : Type := mk_rasterize_ctx {
  rs_pos : pyobj;
  rs_tri : pyobj;
  rs_out : Tensor;
  saved_grad_db : bool
}.

(** [_rasterize_func.forward], lines 164-168 *)
Definition _rasterize_func_forward (glctx : RasterizeGLContext) (pos tri : pyobj)
    (resolution : list Z) (ranges : pyobj) (grad_db : bool)
  : prog (Tensor * Tensor * rasterize_ctx) :=
  '(out, out_db) <-
    call (plugin_rasterize_fwd (cpp_wrapper glctx) pos tri resolution ranges) ;;
  Ret (out, out_db, mk_rasterize_ctx pos tri out grad_db).

(** Gradients of [_rasterize_func.forward]'s six inputs, in their order:
    [glctx, pos, tri, resolution, ranges, grad_db]. *)
Record rasterize_grads : Type := mk_rasterize_grads {
  rg_glctx : option Tensor;
  rg_pos : option Tensor;
  rg_tri : option Tensor;
  rg_resolution : option Tensor;
  rg_ranges : option Tensor;
  rg_grad_db : option Tensor
}.

(** [_rasterize_func.backward], lines 171-177 *)
Definition _rasterize_func_backward (ctx : rasterize_ctx) (dy ddb : pyobj)
  : prog rasterize_grads :=
  let pos := rs_pos ctx in
  let tri := rs_tri ctx in
  let out := PyTensor (rs_out ctx) in
  g_pos <- (if saved_grad_db ctx then
              call (plugin_rasterize_grad_db pos tri out dy ddb)
            else
              call (plugin_rasterize_grad pos tri out dy)) ;;
  Ret (mk_rasterize_grads None (Some g_pos) None None None None).

(** [rasterize], lines 180-223.  [resolution] is a sequence of integers,
    which [tuple()] of line 216 leaves as it is; an object that is no
    sequence, for which [tuple()] raises [TypeError], is outside this
    embedding. *)
Definition rasterize (glctx pos tri : pyobj) (resolution : list Z)
    (ranges grad_db : pyobj) : prog (Tensor * Tensor * rasterize_ctx) :=
  glctx <- match glctx with
           | PyGLContext g => Ret g
           | _ => Raise AssertionError
           end ;;
  grad_db <- assert_bool grad_db ;;
  let grad_db := grad_db && output_db glctx in
  (* Sanitize inputs. *)
  assert (isinstance_Tensor pos && isinstance_Tensor tri) ;;
  ranges <- (if is_not_None ranges then
               assert (isinstance_Tensor ranges) ;; Ret ranges
             else Ret (PyTensor torch_empty_ranges)) ;;
  (* Instantiate the function. *)
  _rasterize_func_forward glctx pos tri resolution ranges grad_db.

(** ** Interpolate (lines 229-310) *)

(** The [diff_attrs] argument: absent, the string ['all'], or a Python
    list of integers (possibly nested).  A list is given by what
    [np.asarray] finds in it: ragged nesting, or else a number of
    dimensions and the items in order.  A flat list, the empty one
    included, has one dimension. *)
Inductive diff_attrs_arg : Type :=
| DiffNone
| DiffAll
| DiffArray (ndim : nat) (items : list Z)
| DiffRagged.

(** [diff_attrs] after lines 291-296: ['all'] or a flat list. *)
Inductive diff_attrs_val : Type :=
| SelAll
| SelList (items : list Z).

(** An integer [np.int32] holds. *)
Definition fits_int32 (z : Z) : bool :=
  (-2147483648 <=? z) && (z <=? 2147483647).

(** [np.asarray(diff_attrs, np.int32)], line 294, on a list of integers, as
    NumPy 2 converts: a ragged list is refused with [ValueError], an
    integer outside int32 with [OverflowError], and otherwise the array
    has the list's dimensions and items.  Lines 291-293 keep [None] and
    ['all'] away from this call. *)
Definition np_asarray_int32 (diff_attrs : diff_attrs_arg) : prog (nat * list Z) :=
  match diff_attrs with
  | DiffArray ndim items =>
      if forallb fits_int32 items then Ret (ndim, items) else Raise OverflowError
  | _ => Raise ValueError
  end.

(** Lines 291-296 *)
Definition sanitize_diff_attrs (diff_attrs : diff_attrs_arg) : prog diff_attrs_val :=
  match diff_attrs with
  | DiffNone => Ret (SelList [])
  | DiffAll => Ret SelAll
  | _ =>
      '(ndim, items) <- np_asarray_int32 diff_attrs ;;
      assert (Nat.eqb ndim 1) ;;
      Ret (SelList items)
  end.

(** [diff_attrs == 'all'] *)
Definition is_all (diff_attrs : diff_attrs_val) : bool :=
  match diff_attrs with SelAll => true | SelList _ => false end.

(** Truth value of [diff_attrs]: a non-empty string, or a non-empty list. *)
Definition truthy (diff_attrs : diff_attrs_val) : bool :=
  match diff_attrs with
  | SelAll => true
  | SelList [] => false
  | SelList (_ :: _) => true
  end.

Record interpolate_da_ctx : Type := mk_interpolate_da_ctx {
  ia_attr : pyobj;
  ia_rast : pyobj;
  ia_tri : pyobj;
  ia_rast_db : pyobj;
  ia_diff_attrs_all : Z;
  ia_diff_attrs_list : list Z
}.

Record interpolate_ctx : Type := mk_interpolate_ctx {
  ip_attr : pyobj;
  ip_rast : pyobj;
  ip_tri : pyobj
}.

(** The autograd node behind the tensors [interpolate] returns. *)
Inductive interpolate_node : Type :=
| node_interpolate_func_da (ctx : interpolate_da_ctx)
| node_interpolate_func (ctx : interpolate_ctx).

(** [_interpolate_func_da.forward], lines 232-236 *)
Definition _interpolate_func_da_forward (attr rast tri rast_db : pyobj)
    (diff_attrs_all : Z) (diff_attrs_list : list Z)
  : prog (Tensor * Tensor * interpolate_da_ctx) :=
  '(out, out_da) <-
    call (plugin_interpolate_fwd_da attr rast tri rast_db diff_attrs_all diff_attrs_list) ;;
  Ret (out, out_da,
       mk_interpolate_da_ctx attr rast tri rast_db diff_attrs_all diff_attrs_list).

(** Gradients of [_interpolate_func_da.forward]'s six inputs. *)
Record interpolate_da_grads : Type := mk_interpolate_da_grads {
  iag_attr : option Tensor;
  iag_rast : option Tensor;
  iag_tri : option Tensor;
  iag_rast_db : option Tensor;
  iag_diff_attrs_all : option Tensor;
  iag_diff_attrs_list : option Tensor
}.

(** [_interpolate_func_da.backward], lines 239-243 *)
Definition _interpolate_func_da_backward (ctx : interpolate_da_ctx) (dy dda : pyobj)
  : prog interpolate_da_grads :=
  '(g_attr, g_rast, g_rast_db) <-
    call (plugin_interpolate_grad_da (ia_attr ctx) (ia_rast ctx) (ia_tri ctx) dy
            (ia_rast_db ctx) dda (ia_diff_attrs_all ctx) (ia_diff_attrs_list ctx)) ;;
  Ret (mk_interpolate_da_grads (Some g_attr) (Some g_rast) None (Some g_rast_db) None None).

(** [_interpolate_func.forward], lines 248-251 *)
Definition _interpolate_func_forward (attr rast tri : pyobj)
  : prog (Tensor * Tensor * interpolate_ctx) :=
  '(out, out_da) <- call (plugin_interpolate_fwd attr rast tri) ;;
  Ret (out, out_da, mk_interpolate_ctx attr rast tri).

(** Gradients of [_interpolate_func.forward]'s three inputs. *)
Record interpolate_grads : Type := mk_interpolate_grads {
  ipg_attr : option Tensor;
  ipg_rast : option Tensor;
  ipg_tri : option Tensor
}.

(** [_interpolate_func.backward], lines 254-257 *)
Definition _interpolate_func_backward (ctx : interpolate_ctx) (dy : pyobj)
  : prog interpolate_grads :=
  '(g_attr, g_rast) <-
    call (plugin_interpolate_grad (ip_attr ctx) (ip_rast ctx) (ip_tri ctx) dy) ;;
  Ret (mk_interpolate_grads (Some g_attr) (Some g_rast) None).

(** [_interpolate_func_da.apply] *)
Definition _interpolate_func_da_apply (attr rast tri rast_db : pyobj)
    (diff_attrs_all : Z) (diff_attrs_list : list Z)
  : prog (Tensor * Tensor * interpolate_node) :=
  '(out, out_da, ctx) <-
    _interpolate_func_da_forward attr rast tri rast_db diff_attrs_all diff_attrs_list ;;
  Ret (out, out_da, node_interpolate_func_da ctx).

(** [_interpolate_func.apply] *)
Definition _interpolate_func_apply (attr rast tri : pyobj)
  : prog (Tensor * Tensor * interpolate_node) :=
  '(out, out_da, ctx) <- _interpolate_func_forward attr rast tri ;;
  Ret (out, out_da, node_interpolate_func ctx).

(** [interpolate], lines 260-310 *)
Definition interpolate (attr rast tri rast_db : pyobj) (diff_attrs : diff_attrs_arg)
  : prog (Tensor * Tensor * interpolate_node) :=
  (* Sanitize the list of pixel differential attributes. *)
  diff_attrs <- sanitize_diff_attrs diff_attrs ;;
  let diff_attrs_all := if is_all diff_attrs then 1 else 0 in
  let diff_attrs_list :=
    match diff_attrs with SelAll => [] | SelList items => items end in
  (* Check inputs. *)
  assert (forallb isinstance_Tensor [attr; rast; tri]) ;;
  (if truthy diff_attrs then assert (isinstance_Tensor rast_db) else Ret tt) ;;
  (* Choose stub. *)
  if truthy diff_attrs then
    _interpolate_func_da_apply attr rast tri rast_db diff_attrs_all diff_attrs_list
  else
    _interpolate_func_apply attr rast tri.

(** ** Texture (lines 316-461) *)

(** [ctx.save_for_backward(tex, uv, uv_da)] and [ctx.saved_misc] of
    [_texture_func_mip.forward]. *)
Record texture_mip_ctx : Type := mk_texture_mip_ctx {
  tm_tex : pyobj;
  tm_uv : pyobj;
  tm_uv_da : pyobj;
  tm_filter_mode : string;
  tm_mip : pyobj;
  tm_filter_mode_enum : Z;
  tm_boundary_mode_enum : Z
}.

(** [ctx.save_for_backward(tex, uv)] and [ctx.saved_misc] of
    [_texture_func.forward]. *)
Record texture_ctx : Type := mk_texture_ctx {
  tx_tex : pyobj;
  tx_uv : pyobj;
  tx_filter_mode : string;
  tx_filter_mode_enum : Z;
  tx_boundary_mode_enum : Z
}.

(** The autograd node behind the tensor [texture] returns. *)
Inductive texture_node : Type :=
| node_texture_func_mip (ctx : texture_mip_ctx)
| node_texture_func (ctx : texture_ctx).

(** [_texture_func_mip.forward], lines 319-323 *)
Definition _texture_func_mip_forward
    (filter_mode : string) (tex uv uv_da mip : pyobj)
    (filter_mode_enum boundary_mode_enum : Z) : prog (Tensor * texture_mip_ctx) :=
  out <- call (plugin_texture_fwd_mip tex uv uv_da mip filter_mode_enum boundary_mode_enum) ;;
  Ret (out, mk_texture_mip_ctx tex uv uv_da filter_mode mip
              filter_mode_enum boundary_mode_enum).

(** [_texture_func.forward], lines 339-343 *)
Definition _texture_func_forward
    (filter_mode : string) (tex uv : pyobj)
    (filter_mode_enum boundary_mode_enum : Z) : prog (Tensor * texture_ctx) :=
  out <- call (plugin_texture_fwd tex uv filter_mode_enum boundary_mode_enum) ;;
  Ret (out, mk_texture_ctx tex uv filter_mode filter_mode_enum boundary_mode_enum).

(** Gradients of [_texture_func_mip.forward]'s seven inputs. *)
Record texture_mip_grads : Type := mk_texture_mip_grads {
  tmg_filter_mode : option Tensor;
  tmg_tex : option Tensor;
  tmg_uv : option Tensor;
  tmg_uv_da : option Tensor;
  tmg_mip : option Tensor;
  tmg_filter_mode_enum : option Tensor;
  tmg_boundary_mode_enum : option Tensor
}.

(** [_texture_func_mip.backward], lines 326-334 *)
Definition _texture_func_mip_backward
    (ctx : texture_mip_ctx) (dy : pyobj) : prog texture_mip_grads :=
  let tex := tm_tex ctx in
  let uv := tm_uv ctx in
  let uv_da := tm_uv_da ctx in
  let filter_mode := tm_filter_mode ctx in
  let mip := tm_mip ctx in
  let filter_mode_enum := tm_filter_mode_enum ctx in
  let boundary_mode_enum := tm_boundary_mode_enum ctx in
  if String.eqb filter_mode "linear-mipmap-linear" then
    '(g_tex, g_uv, g_uv_da) <-
      call (plugin_texture_grad_linear_mipmap_linear
              tex uv dy uv_da mip filter_mode_enum boundary_mode_enum) ;;
    Ret (mk_texture_mip_grads None (Some g_tex) (Some g_uv) (Some g_uv_da) None None None)
  else
    '(g_tex, g_uv) <-
      call (plugin_texture_grad_linear_mipmap_nearest
              tex uv dy uv_da mip filter_mode_enum boundary_mode_enum) ;;
    Ret (mk_texture_mip_grads None (Some g_tex) (Some g_uv) None None None None).

(** Gradients of [_texture_func.forward]'s five inputs. *)
Record texture_grads : Type := mk_texture_grads {
  txg_filter_mode : option Tensor;
  txg_tex : option Tensor;
  txg_uv : option Tensor;
  txg_filter_mode_enum : option Tensor;
  txg_boundary_mode_enum : option Tensor
}.

(** [_texture_func.backward], lines 346-354 *)
Definition _texture_func_backward
    (ctx : texture_ctx) (dy : pyobj) : prog texture_grads :=
  let tex := tx_tex ctx in
  let uv := tx_uv ctx in
  let filter_mode := tx_filter_mode ctx in
  let filter_mode_enum := tx_filter_mode_enum ctx in
  let boundary_mode_enum := tx_boundary_mode_enum ctx in
  if String.eqb filter_mode "linear" then
    '(g_tex, g_uv) <-
      call (plugin_texture_grad_linear tex uv dy filter_mode_enum boundary_mode_enum) ;;
    Ret (mk_texture_grads None (Some g_tex) (Some g_uv) None None)
  else
    g_tex <-
      call (plugin_texture_grad_nearest tex uv dy filter_mode_enum boundary_mode_enum) ;;
    Ret (mk_texture_grads None (Some g_tex) None None None).

(** [_texture_func_mip.apply]: the forward pass, and the node that keeps
    its context for the backward pass. *)
Definition _texture_func_mip_apply
    (filter_mode : string) (tex uv uv_da mip : pyobj)
    (filter_mode_enum boundary_mode_enum : Z) : prog (Tensor * texture_node) :=
  '(out, ctx) <- _texture_func_mip_forward filter_mode tex uv uv_da mip
                   filter_mode_enum boundary_mode_enum ;;
  Ret (out, node_texture_func_mip ctx).

(** [_texture_func.apply] *)
Definition _texture_func_apply
    (filter_mode : string) (tex uv : pyobj)
    (filter_mode_enum boundary_mode_enum : Z) : prog (Tensor * texture_node) :=
  '(out, ctx) <- _texture_func_forward filter_mode tex uv
                   filter_mode_enum boundary_mode_enum ;;
  Ret (out, node_texture_func ctx).

(** Lines 397-398: the default filter mode. *)
Definition default_filter_mode (filter_mode : string) (uv_da : pyobj) : string :=
  if String.eqb filter_mode "auto" then
    if is_not_None uv_da then "linear-mipmap-linear" else "linear"
  else filter_mode.

(** Lines 401-405 (and 456-460): [max_mip_level] is [None] or an integer,
    and [int()] of an integer is that integer.  A float, which [int()]
    truncates, and an object [int()] refuses are outside this embedding. *)
Definition sanitize_max_mip_level (max_mip_level : option Z) : prog Z :=
  match max_mip_level with
  | None => Ret (-1)
  | Some m => assert (0 <=? m) ;; Ret m
  end.

(** Line 413: [['linear-mipmap-nearest', 'linear-mipmap-linear']] *)
Definition mipmap_filter_modes : list string :=
  ["linear-mipmap-nearest"; "linear-mipmap-linear"].

(** Line 417 *)
Definition filter_mode_dict : list (string * Z) :=
  [("nearest", 0); ("linear", 1); ("linear-mipmap-nearest", 2);
   ("linear-mipmap-linear", 3)].

(** Line 421 *)
Definition boundary_mode_dict : list (string * Z) :=
  [("cube", 0); ("wrap", 1); ("clamp", 2); ("zero", 3)].

(** [texture], lines 357-435 *)
Definition texture (tex uv uv_da mip : pyobj)
    (filter_mode boundary_mode : string) (max_mip_level : option Z)
  : prog (Tensor * texture_node) :=
  (* Default filter mode. *)
  let filter_mode := default_filter_mode filter_mode uv_da in
  (* Sanitize inputs. *)
  max_mip_level <- sanitize_max_mip_level max_mip_level ;;
  (* Check inputs. *)
  assert (isinstance_Tensor tex && isinstance_Tensor uv) ;;
  (if contains "mipmap" filter_mode then assert (isinstance_Tensor uv_da) else Ret tt) ;;
  (* If mipping disabled via max level=0, use simpler filtering internally. *)
  let filter_mode :=
    if (max_mip_level =? 0)
       && in_list filter_mode mipmap_filter_modes
    then "linear" else filter_mode in
  (* Convert filter mode and boundary mode to the internal enumerations. *)
  filter_mode_enum <- subscript filter_mode_dict filter_mode ;;
  boundary_mode_enum <- subscript boundary_mode_dict boundary_mode ;;
  (* Construct a mipmap if necessary. *)
  mip <- (if contains "mipmap" filter_mode then
            if is_not_None mip then
              assert (isinstance_TextureMipWrapper mip) ;; Ret mip
            else
              m <- call (plugin_texture_construct_mip
                           tex max_mip_level (String.eqb boundary_mode "cube")) ;;
              Ret (PyTextureMip m)
          else Ret mip) ;;
  (* Choose stub. *)
  if String.eqb filter_mode "linear-mipmap-linear"
     || String.eqb filter_mode "linear-mipmap-nearest"
  then
    _texture_func_mip_apply filter_mode tex uv uv_da mip
      filter_mode_enum boundary_mode_enum
  else
    _texture_func_apply filter_mode tex uv filter_mode_enum boundary_mode_enum.

(** [texture_construct_mip], lines 438-461 *)
Definition texture_construct_mip (tex : pyobj)
    (max_mip_level : option Z) (cube_mode : pyobj) : prog TextureMipWrapper :=
  assert (isinstance_Tensor tex) ;;
  cube_mode <- assert_bool cube_mode ;;
  max_mip_level <- sanitize_max_mip_level max_mip_level ;;
  call (plugin_texture_construct_mip tex max_mip_level cube_mode).

(** ** Antialias (lines 467-532) *)

(** [a != b] on Python floats: IEEE comparison. *)
Definition float_ne (a b : float) : bool := negb (PrimFloat.eqb a b).

(** [ctx.save_for_backward(color, rast, pos, tri)] and [ctx.saved_misc]. *)
Record antialias_ctx : Type := mk_antialias_ctx {
  aa_color : pyobj;
  aa_rast : pyobj;
  aa_pos : pyobj;
  aa_tri : pyobj;
  aa_pos_gradient_boost : float;
  aa_work_buffer : WorkBuffer
}.

(** [_antialias_func.forward], lines 469-473 *)
Definition _antialias_func_forward (color rast pos tri topology_hash : pyobj)
    (pos_gradient_boost : float) : prog (Tensor * antialias_ctx) :=
  '(out, work_buffer) <-
    call (plugin_antialias_fwd color rast pos tri topology_hash) ;;
  Ret (out, mk_antialias_ctx color rast pos tri pos_gradient_boost work_buffer).

(** Gradients of [_antialias_func.forward]'s six inputs, in their order:
    [color, rast, pos, tri, topology_hash, pos_gradient_boost]. *)
Record antialias_grads : Type := mk_antialias_grads {
  ag_color : option Tensor;
  ag_rast : option Tensor;
  ag_pos : option Tensor;
  ag_tri : option Tensor;
  ag_topology_hash : option Tensor;
  ag_pos_gradient_boost : option Tensor
}.

(** [_antialias_func.backward], lines 476-482 *)
Definition _antialias_func_backward (ctx : antialias_ctx) (dy : pyobj)
  : prog antialias_grads :=
  let pos_gradient_boost := aa_pos_gradient_boost ctx in
  '(g_color, g_pos) <-
    call (plugin_antialias_grad (aa_color ctx) (aa_rast ctx) (aa_pos ctx) (aa_tri ctx)
            dy (PyWorkBuffer (aa_work_buffer ctx))) ;;
  let g_pos :=
    if float_ne pos_gradient_boost 1%float
    then tensor_mul g_pos pos_gradient_boost
    else g_pos in
  Ret (mk_antialias_grads (Some g_color) None (Some g_pos) None None None).

(** [antialias], lines 485-514 *)
Definition antialias (color rast pos tri topology_hash : pyobj)
    (pos_gradient_boost : float) : prog (Tensor * antialias_ctx) :=
  (* Check inputs. *)
  assert (forallb isinstance_Tensor [color; rast; pos; tri]) ;;
  (* Construct topology hash unless provided by user. *)
  topology_hash <- (if is_not_None topology_hash then
                      assert (isinstance_TopologyHashWrapper topology_hash) ;;
                      Ret topology_hash
                    else
                      h <- call (plugin_antialias_construct_topology_hash tri) ;;
                      Ret (PyTopologyHash h)) ;;
  (* Instantiate the function. *)
  _antialias_func_forward color rast pos tri topology_hash pos_gradient_boost.

(** [antialias_construct_topology_hash], lines 517-532 *)
Definition antialias_construct_topology_hash (tri : pyobj) : prog TopologyHashWrapper :=
  assert (isinstance_Tensor tri) ;;
  call (plugin_antialias_construct_topology_hash tri).

End Wrappers.

(** ** A small concrete plugin

    Tensors and wrapper objects are numbered; the plugin answers every
    call, and builds a pyramid handle from the level cap it was given.
    It serves to run the wrappers on concrete calls. *)
Module Mock.

#[global] Instance runtime : Runtime := {|
  Tensor := Z;
  TextureMipWrapper := Z;
  TopologyHashWrapper := Z;
  RasterizeGLStateWrapper := bool * bool;
  WorkBuffer := Z;
  tensor_mul := fun g b => if PrimFloat.eqb b 1%float then g else 2 * g;
  torch_empty_ranges := 0
|}.

Definition plugin : handler := fun c =>
  match c return exn + answer c with
  | plugin_RasterizeGLStateWrapper o a => inr (o, a)
  | plugin_set_context _ => inr tt
  | plugin_release_context _ => inr tt
  | plugin_rasterize_fwd _ _ _ _ _ => inr (10, 11)
  | plugin_rasterize_grad _ _ _ _ => inr 12
  | plugin_rasterize_grad_db _ _ _ _ _ => inr 13
  | plugin_interpolate_fwd _ _ _ => inr (20, 21)
  | plugin_interpolate_fwd_da _ _ _ _ _ _ => inr (22, 23)
  | plugin_interpolate_grad _ _ _ _ => inr (24, 25)
  | plugin_interpolate_grad_da _ _ _ _ _ _ _ _ => inr (26, 27, 28)
  | plugin_texture_construct_mip _ max_mip_level _ => inr (100 + max_mip_level)
  | plugin_texture_fwd _ _ _ _ => inr 30
  | plugin_texture_fwd_mip _ _ _ _ _ _ => inr 31
  | plugin_texture_grad_nearest _ _ _ _ _ => inr 32
  | plugin_texture_grad_linear _ _ _ _ _ => inr (33, 34)
  | plugin_texture_grad_linear_mipmap_nearest _ _ _ _ _ _ _ => inr (35, 36)
  | plugin_texture_grad_linear_mipmap_linear _ _ _ _ _ _ _ => inr (37, 38, 39)
  | plugin_antialias_construct_topology_hash _ => inr 40
  | plugin_antialias_fwd _ _ _ _ _ => inr (41, 42)
  | plugin_antialias_grad _ _ _ _ _ _ => inr (43, 44)
  end.

(** Four tensors to call the wrappers with. *)
Definition t1 : pyobj := PyTensor 1.
Definition t2 : pyobj := PyTensor 2.
Definition t3 : pyobj := PyTensor 3.
Definition t4 : pyobj := PyTensor 4.

End Mock.

(** ** Observations and proof steps *)

(** The plugin calls that build or read a mipmap pyramid in the forward pass. *)
Definition is_mipmap_work `{Runtime} (c : plugin_call) : bool :=
  match c with
  | plugin_texture_construct_mip _ _ _ => true
  | plugin_texture_fwd_mip _ _ _ _ _ _ => true
  | _ => false
  end.

(** The forward call of the variant with derivative output. *)
Definition is_interpolate_fwd_da `{Runtime} (c : plugin_call) : bool :=
  match c with
  | plugin_interpolate_fwd_da _ _ _ _ _ _ => true
  | _ => false
  end.

(** The forward call of the variant without derivative output. *)
Definition is_interpolate_fwd `{Runtime} (c : plugin_call) : bool :=
  match c with
  | plugin_interpolate_fwd _ _ _ => true
  | _ => false
  end.

(** The plugin's answer to the gradient call of a backward pass. *)
Definition rasterize_grad_answer `{Runtime} (h : handler) (ctx : rasterize_ctx)
    (dy ddb : pyobj) : exn + Tensor :=
  if saved_grad_db ctx then
    h (plugin_rasterize_grad_db (rs_pos ctx) (rs_tri ctx) (PyTensor (rs_out ctx)) dy ddb)
  else
    h (plugin_rasterize_grad (rs_pos ctx) (rs_tri ctx) (PyTensor (rs_out ctx)) dy).

(** The filter mode [texture] works with after lines 397-398 and 413-414:
    [n] is the sanitized [max_mip_level]. *)
Definition effective_filter_mode `{Runtime} (filter_mode : string) (uv_da : pyobj)
    (n : Z) : string :=
  if (n =? 0) && in_list (default_filter_mode filter_mode uv_da) mipmap_filter_modes
  then "linear" else default_filter_mode filter_mode uv_da.

(** The level cap of a pyramid construction is -1 (no cap) or positive. *)
Definition construct_mip_level_uncapped_or_positive `{Runtime} (c : plugin_call) : Prop :=
  match c with
  | plugin_texture_construct_mip _ max_mip_level _ =>
      max_mip_level = -1 \/ 0 < max_mip_level
  | _ => True
  end.

(** The level cap of a pyramid construction is -1 (no cap) or not negative. *)
Definition construct_mip_level_valid `{Runtime} (c : plugin_call) : Prop :=
  match c with
  | plugin_texture_construct_mip _ max_mip_level _ => -1 <= max_mip_level
  | _ => True
  end.

(** What the plugin's [interpolate_fwd_da] is given: a tensor [rast_db],
    and either the 'all' flag with an empty list or no flag with a
    non-empty list. *)
Definition interpolate_fwd_da_well_formed `{Runtime} (c : plugin_call) : Prop :=
  match c with
  | plugin_interpolate_fwd_da _ _ _ rast_db diff_attrs_all diff_attrs_list =>
      isinstance_Tensor rast_db = true /\
      ((diff_attrs_all = 1 /\ diff_attrs_list = []) \/
       (diff_attrs_all = 0 /\ diff_attrs_list <> []))
  | _ => True
  end.

Ltac unfold_texture :=
  unfold texture, _texture_func_mip_apply, _texture_func_apply,
    _texture_func_mip_forward, _texture_func_forward, sanitize_max_mip_level,
    subscript, call, assert.

Ltac break_cond :=
  match goal with
  | |- context [if ?b then _ else _] =>
      lazymatch b with
      | context [if _ then _ else _] => fail
      | _ => destruct b eqn:?
      end
  end.

(** ** Running programs: equations *)

Arguments trace : simpl never.
Arguments result : simpl never.

Section Running.
Context `{Runtime}.
Variable h : handler.

Lemma result_Ret (A : Type) (a : A) : result h (Ret a) = inr a.
Proof. reflexivity. Qed.

Lemma result_Raise (A : Type) (e : exn) : result h (@Raise _ A e) = inl e.
Proof. reflexivity. Qed.

Lemma trace_Ret (A : Type) (a : A) : trace h (Ret a) = [].
Proof. reflexivity. Qed.

Lemma trace_Raise (A : Type) (e : exn) : trace h (@Raise _ A e) = [].
Proof. reflexivity. Qed.

Lemma result_Vis (A : Type) (c : plugin_call) (k : answer c -> prog A) :
  result h (Vis c k) =
  match h c with inl e => inl e | inr x => result h (k x) end.
Proof.
  unfold result. simpl. destruct (h c) as [e|x]; [reflexivity|].
  destruct (run h (k x)); reflexivity.
Qed.

Lemma trace_Vis (A : Type) (c : plugin_call) (k : answer c -> prog A) :
  trace h (Vis c k) =
  c :: match h c with inl _ => [] | inr x => trace h (k x) end.
Proof.
  unfold trace. simpl. destruct (h c) as [e|x]; [reflexivity|].
  destruct (run h (k x)); reflexivity.
Qed.

Lemma result_bind (A B : Type) (p : prog A) (f : A -> prog B) :
  result h (bind p f) =
  match result h p with inl e => inl e | inr a => result h (f a) end.
Proof.
  induction p as [a|e|c k IH]; simpl; try reflexivity.
  rewrite !result_Vis. destruct (h c) as [e|x]; [reflexivity|]. apply IH.
Qed.

Lemma trace_bind (A B : Type) (p : prog A) (f : A -> prog B) :
  trace h (bind p f) =
  (trace h p ++ match result h p with inl _ => [] | inr a => trace h (f a) end)%list.
Proof.
  induction p as [a|e|c k IH]; simpl; try reflexivity.
  rewrite !trace_Vis, result_Vis. simpl. f_equal.
  destruct (h c) as [e|x]; [reflexivity|]. apply IH.
Qed.

End Running.

Ltac trace_done :=
  repeat first
    [ rewrite trace_Raise | rewrite trace_Ret | rewrite trace_Vis
    | apply Forall_nil | apply Forall_cons; [reflexivity|]
    | match goal with
      | |- context [match ?h ?c with inl _ => _ | inr _ => _ end] => destruct (h c)
      end ].

(** ** Texture: filter-mode resolution, the level cap and the pyramid *)

Section TextureFacts.
Context `{Runtime}.

Lemma mipmap_filter_mode_cases (f : string) :
  in_list f mipmap_filter_modes = true ->
  f = "linear-mipmap-nearest" \/ f = "linear-mipmap-linear".
Proof.
  unfold in_list, mipmap_filter_modes. simpl. intros Hf.
  destruct (String.eqb_spec f "linear-mipmap-nearest") as [E1|_]; [now left|].
  destruct (String.eqb_spec f "linear-mipmap-linear") as [E2|_]; [now right|].
  discriminate.
Qed.

Lemma filter_mode_dict_cases (f : string) (fe : Z) :
  dict_get filter_mode_dict f = Some fe ->
  (f = "nearest" /\ fe = 0) \/ (f = "linear" /\ fe = 1) \/
  (f = "linear-mipmap-nearest" /\ fe = 2) \/ (f = "linear-mipmap-linear" /\ fe = 3).
Proof.
  unfold filter_mode_dict. cbn [dict_get].
  destruct (String.eqb_spec f "nearest") as [E|_]; [intros [= <-]; auto|].
  destruct (String.eqb_spec f "linear") as [E|_]; [intros [= <-]; auto|].
  destruct (String.eqb_spec f "linear-mipmap-nearest") as [E|_];
    [intros [= <-]; auto|].
  destruct (String.eqb_spec f "linear-mipmap-linear") as [E|_];
    [intros [= <-]; auto 6|].
  discriminate.
Qed.

Lemma default_filter_mode_explicit (f : string) (uv_da : pyobj) :
  String.eqb f "auto" = false -> default_filter_mode f uv_da = f.
Proof. unfold default_filter_mode. now intros ->. Qed.

(** With filter mode 'linear' no pyramid is built or read, whatever the
    other arguments are. *)
Lemma texture_linear_no_mipmap_work (h : handler) (tex uv uv_da mip : pyobj)
    (bm : string) (l : option Z) :
  Forall (fun c => is_mipmap_work c = false)
    (trace h (texture tex uv uv_da mip "linear" bm l)).
Proof.
  unfold_texture. rewrite default_filter_mode_explicit by reflexivity.
  remember (dict_get boundary_mode_dict bm) as obe eqn:Hbe. clear Hbe.
  destruct l as [m|]; cbn; repeat (break_cond; cbn);
    destruct obe; cbn; trace_done.
Qed.

End TextureFacts.

(** C1.  A call of [texture] with filter mode 'auto' is the call with
    filter mode 'linear' when [uv_da] is [None], and the call with filter
    mode 'linear-mipmap-linear' when [uv_da] is given: the two programs
    are the same, so every check, plugin call, result and saved context
    agrees. *)
Theorem texture_auto_filter_mode `{Runtime} (tex uv uv_da mip : pyobj)
    (bm : string) (l : option Z) :
  (uv_da = PyNone ->
   texture tex uv uv_da mip "auto" bm l = texture tex uv uv_da mip "linear" bm l) /\
  (is_not_None uv_da = true ->
   texture tex uv uv_da mip "auto" bm l =
   texture tex uv uv_da mip "linear-mipmap-linear" bm l).
Proof.
  split; intros Hda.
  - subst uv_da. reflexivity.
  - unfold texture.
    assert (E : default_filter_mode "auto" uv_da = "linear-mipmap-linear").
    { unfold default_filter_mode. now rewrite Hda. }
    rewrite E. rewrite default_filter_mode_explicit by reflexivity. reflexivity.
Qed.

Lemma texture_auto_filter_mode_witness :
  texture Mock.t1 Mock.t2 PyNone PyNone "auto" "wrap" None =
  texture Mock.t1 Mock.t2 PyNone PyNone "linear" "wrap" None /\
  texture Mock.t1 Mock.t2 Mock.t3 PyNone "auto" "wrap" None =
  texture Mock.t1 Mock.t2 Mock.t3 PyNone "linear-mipmap-linear" "wrap" None.
Proof.
  split.
  - apply (proj1 (texture_auto_filter_mode Mock.t1 Mock.t2 PyNone PyNone "wrap" None)).
    reflexivity.
  - apply (proj2 (texture_auto_filter_mode Mock.t1 Mock.t2 Mock.t3 PyNone "wrap" None)).
    reflexivity.
Defined.

(** What 'auto' comes to on the mock plugin: without derivatives the
    non-mip stub runs with filter enum 1, with derivatives a pyramid is
    built and the mip stub runs with filter enum 3. *)
Example texture_auto_runs :
  run Mock.plugin (texture Mock.t1 Mock.t2 PyNone PyNone "auto" "wrap" None) =
    ([plugin_texture_fwd Mock.t1 Mock.t2 1 1],
     inr (30, node_texture_func (mk_texture_ctx Mock.t1 Mock.t2 "linear" 1 1))) /\
  run Mock.plugin (texture Mock.t1 Mock.t2 Mock.t3 PyNone "auto" "wrap" None) =
    ([plugin_texture_construct_mip Mock.t1 (-1) false;
      plugin_texture_fwd_mip Mock.t1 Mock.t2 Mock.t3 (PyTextureMip 99) 3 1],
     inr (31, node_texture_func_mip
                (mk_texture_mip_ctx Mock.t1 Mock.t2 Mock.t3 "linear-mipmap-linear"
                   (PyTextureMip 99) 3 1))).
Proof. split; reflexivity. Qed.

(** C2, as stated, fails: with [max_mip_level=0], a mipmap filter mode and
    no [uv_da], the call stops at the assertion of line 410 and never
    reaches the non-mip sampling path, which the same call with filter
    mode 'linear' takes. *)
Lemma texture_max_level_zero_needs_uv_da :
  texture Mock.t1 Mock.t2 PyNone PyNone "linear-mipmap-nearest" "wrap" (Some 0) =
    Raise AssertionError /\
  texture Mock.t1 Mock.t2 PyNone PyNone "linear-mipmap-nearest" "wrap" (Some 0) <>
    texture Mock.t1 Mock.t2 PyNone PyNone "linear" "wrap" (Some 0) /\
  run Mock.plugin
    (texture Mock.t1 Mock.t2 PyNone PyNone "linear-mipmap-nearest" "wrap" (Some 0)) =
    ([], inl AssertionError) /\
  run Mock.plugin (texture Mock.t1 Mock.t2 PyNone PyNone "linear" "wrap" (Some 0)) =
    ([plugin_texture_fwd Mock.t1 Mock.t2 1 1],
     inr (30, node_texture_func (mk_texture_ctx Mock.t1 Mock.t2 "linear" 1 1))).
Proof.
  split; [reflexivity|]. split; [discriminate|]. split; reflexivity.
Qed.

(** C2, amended.  With [max_mip_level=0], a mipmap filter mode (given or
    resolved from 'auto') and [uv_da] a tensor, the call is the call with
    filter mode 'linear': no plugin call builds or reads a pyramid, and
    when [tex] and [uv] are tensors and the boundary mode is known it is
    [_texture_func.apply] with filter mode 'linear' (enum 1). *)
Theorem texture_max_level_zero_degrades `{Runtime} (tex uv uv_da mip : pyobj)
    (fm bm : string) :
  in_list (default_filter_mode fm uv_da) mipmap_filter_modes = true ->
  isinstance_Tensor uv_da = true ->
  texture tex uv uv_da mip fm bm (Some 0) = texture tex uv uv_da mip "linear" bm (Some 0) /\
  (forall h : handler,
     Forall (fun c => is_mipmap_work c = false)
       (trace h (texture tex uv uv_da mip fm bm (Some 0)))) /\
  (forall be : Z,
     isinstance_Tensor tex = true -> isinstance_Tensor uv = true ->
     dict_get boundary_mode_dict bm = Some be ->
     texture tex uv uv_da mip fm bm (Some 0) = _texture_func_apply "linear" tex uv 1 be).
Proof.
  intros Hfm Hda.
  assert (E : texture tex uv uv_da mip fm bm (Some 0) =
              texture tex uv uv_da mip "linear" bm (Some 0)).
  { unfold texture. rewrite (default_filter_mode_explicit "linear") by reflexivity.
    destruct (mipmap_filter_mode_cases _ Hfm) as [E|E]; rewrite E; simpl;
      rewrite Hda; destruct (isinstance_Tensor tex && isinstance_Tensor uv);
      reflexivity. }
  split; [exact E|]. split.
  - intros h. rewrite E. apply texture_linear_no_mipmap_work.
  - intros be Htex Huv Hbm. rewrite E. unfold texture, subscript.
    rewrite default_filter_mode_explicit by reflexivity.
    rewrite Htex, Huv, Hbm. reflexivity.
Qed.

Lemma texture_max_level_zero_degrades_witness :
  texture Mock.t1 Mock.t2 Mock.t3 PyNone "auto" "clamp" (Some 0) =
  _texture_func_apply "linear" Mock.t1 Mock.t2 1 2.
Proof.
  refine (proj2 (proj2 (texture_max_level_zero_degrades
            Mock.t1 Mock.t2 Mock.t3 PyNone "auto" "clamp" _ _)) 2 _ _ _);
    reflexivity.
Defined.

(** C8.  A call of [texture] with a mipmap filter mode (given, or resolved
    from 'auto') whose [uv_da] is not a tensor raises [AssertionError]
    before any plugin call, whatever the other arguments are,
    [max_mip_level=0] included. *)
Theorem texture_mipmap_requires_uv_da `{Runtime} (tex uv uv_da mip : pyobj)
    (fm bm : string) (l : option Z) :
  in_list (default_filter_mode fm uv_da) mipmap_filter_modes = true ->
  isinstance_Tensor uv_da = false ->
  texture tex uv uv_da mip fm bm l = Raise AssertionError /\
  (forall h : handler,
     run h (texture tex uv uv_da mip fm bm l) = ([], inl AssertionError)).
Proof.
  intros Hfm Hda.
  assert (E : texture tex uv uv_da mip fm bm l = Raise AssertionError).
  { unfold_texture.
    destruct (mipmap_filter_mode_cases _ Hfm) as [E|E]; rewrite E;
      destruct l as [m|]; cbn; rewrite Hda;
      repeat (break_cond; cbn); reflexivity. }
  split; [exact E|]. intros h. rewrite E. reflexivity.
Qed.

Lemma texture_mipmap_requires_uv_da_witness :
  texture Mock.t1 Mock.t2 PyNone PyNone "linear-mipmap-linear" "wrap" (Some 0) =
    Raise AssertionError /\
  texture Mock.t1 Mock.t2 (PyInt 5) PyNone "auto" "wrap" None = Raise AssertionError.
Proof.
  split.
  - apply (texture_mipmap_requires_uv_da
             Mock.t1 Mock.t2 PyNone PyNone "linear-mipmap-linear" "wrap" (Some 0));
      reflexivity.
  - apply (texture_mipmap_requires_uv_da
             Mock.t1 Mock.t2 (PyInt 5) PyNone "auto" "wrap" None);
      reflexivity.
Defined.

(** C10.  With a mipmap filter mode and a pyramid handle supplied by the
    caller, a [max_mip_level] other than 0 goes through the check of lines
    401-405 and nowhere else: the call is that check followed by the call
    with no [max_mip_level] at all, so every level that passes the check
    gives the same program.  With valid inputs that program is
    [_texture_func_mip.apply] on the handle, where no argument of
    [texture_fwd_mip] is the level; without a handle the level is the
    second argument of the transient [texture_construct_mip], and only
    that. *)
Theorem texture_supplied_mip_ignores_max_mip_level `{Runtime}
    (tex uv uv_da : pyobj) (m : TextureMipWrapper) (fm bm : string)
    (l : option Z) :
  in_list (default_filter_mode fm uv_da) mipmap_filter_modes = true ->
  l <> Some 0 ->
  texture tex uv uv_da (PyTextureMip m) fm bm l =
    (sanitize_max_mip_level l ;; texture tex uv uv_da (PyTextureMip m) fm bm None) /\
  (forall n : Z,
     sanitize_max_mip_level l = Ret n ->
     texture tex uv uv_da (PyTextureMip m) fm bm l =
       texture tex uv uv_da (PyTextureMip m) fm bm None /\
     (forall fe be : Z,
        isinstance_Tensor tex = true -> isinstance_Tensor uv = true ->
        isinstance_Tensor uv_da = true ->
        dict_get filter_mode_dict (default_filter_mode fm uv_da) = Some fe ->
        dict_get boundary_mode_dict bm = Some be ->
        texture tex uv uv_da (PyTextureMip m) fm bm l =
          _texture_func_mip_apply (default_filter_mode fm uv_da)
            tex uv uv_da (PyTextureMip m) fe be /\
        texture tex uv uv_da PyNone fm bm l =
          (m' <- call (plugin_texture_construct_mip tex n (String.eqb bm "cube")) ;;
           _texture_func_mip_apply (default_filter_mode fm uv_da)
             tex uv uv_da (PyTextureMip m') fe be))).
Proof.
  intros Hfm Hl.
  assert (Hsame : forall n : Z,
            sanitize_max_mip_level l = Ret n ->
            n <> 0 /\
            texture tex uv uv_da (PyTextureMip m) fm bm l =
            texture tex uv uv_da (PyTextureMip m) fm bm None).
  { intros n Hn.
    assert (Hn0 : n <> 0).
    { destruct l as [z|]; cbn in Hn.
      - destruct (0 <=? z); cbn in Hn; [|discriminate].
        injection Hn as <-. intros ->. now apply Hl.
      - injection Hn as <-. discriminate. }
    split; [exact Hn0|]. apply Z.eqb_neq in Hn0.
    unfold texture. rewrite Hn. cbn. rewrite Hn0.
    destruct (mipmap_filter_mode_cases _ Hfm) as [E|E]; rewrite E; reflexivity. }
  split.
  - destruct l as [z|]; [|reflexivity].
    destruct (0 <=? z) eqn:Hz.
    + rewrite (proj2 (Hsame z ltac:(cbn; now rewrite Hz))).
      cbn. now rewrite Hz.
    + unfold texture. cbn. now rewrite Hz.
  - intros n Hn. destruct (Hsame n Hn) as [Hn0 E0]. split; [exact E0|].
    intros fe be Htex Huv Hda Hfe Hbe. apply Z.eqb_neq in Hn0.
    unfold texture, subscript. rewrite Hn, Htex, Huv, Hda, Hbe.
    destruct (mipmap_filter_mode_cases _ Hfm) as [E|E]; rewrite E in *;
      cbn in Hfe; injection Hfe as <-; cbn; rewrite Hn0; split; reflexivity.
Qed.

Lemma texture_supplied_mip_ignores_max_mip_level_witness :
  texture Mock.t1 Mock.t2 Mock.t3 (PyTextureMip 7) "linear-mipmap-nearest" "cube"
    (Some 4) =
  texture Mock.t1 Mock.t2 Mock.t3 (PyTextureMip 7) "linear-mipmap-nearest" "cube" None.
Proof.
  refine (proj1 (proj2 (texture_supplied_mip_ignores_max_mip_level
            Mock.t1 Mock.t2 Mock.t3 7 "linear-mipmap-nearest" "cube" (Some 4) _ _)
            4 _));
    (reflexivity || discriminate).
Defined.

(** On the mock plugin: a supplied handle with level 4, with level 0 and
    with a negative level, and level 4 without a handle. *)
Example texture_supplied_mip_runs :
  run Mock.plugin
    (texture Mock.t1 Mock.t2 Mock.t3 (PyTextureMip 7) "linear-mipmap-nearest" "cube"
       (Some 4)) =
    ([plugin_texture_fwd_mip Mock.t1 Mock.t2 Mock.t3 (PyTextureMip 7) 2 0],
     inr (31, node_texture_func_mip
                (mk_texture_mip_ctx Mock.t1 Mock.t2 Mock.t3 "linear-mipmap-nearest"
                   (PyTextureMip 7) 2 0))) /\
  run Mock.plugin
    (texture Mock.t1 Mock.t2 Mock.t3 (PyTextureMip 7) "linear-mipmap-nearest" "cube"
       (Some 0)) =
    ([plugin_texture_fwd Mock.t1 Mock.t2 1 0],
     inr (30, node_texture_func (mk_texture_ctx Mock.t1 Mock.t2 "linear" 1 0))) /\
  run Mock.plugin
    (texture Mock.t1 Mock.t2 Mock.t3 (PyTextureMip 7) "linear-mipmap-nearest" "cube"
       (Some (-2))) =
    ([], inl AssertionError) /\
  run Mock.plugin
    (texture Mock.t1 Mock.t2 Mock.t3 PyNone "linear-mipmap-nearest" "cube" (Some 4)) =
    ([plugin_texture_construct_mip Mock.t1 4 true;
      plugin_texture_fwd_mip Mock.t1 Mock.t2 Mock.t3 (PyTextureMip 104) 2 0],
     inr (31, node_texture_func_mip
                (mk_texture_mip_ctx Mock.t1 Mock.t2 Mock.t3 "linear-mipmap-nearest"
                   (PyTextureMip 104) 2 0))).
Proof. repeat split. Qed.

(** What a successful [texture_construct_mip] tells: the checks passed and
    the plugin built the handle for the sanitized level. *)
Lemma texture_construct_mip_inr `{Runtime} (h : handler) (tex : pyobj)
    (l : option Z) (cube : bool) (m : TextureMipWrapper) :
  result h (texture_construct_mip tex l (PyBool cube)) = inr m ->
  isinstance_Tensor tex = true /\
  exists n : Z,
    sanitize_max_mip_level l = Ret n /\
    h (plugin_texture_construct_mip tex n cube) = inr m.
Proof.
  unfold texture_construct_mip, sanitize_max_mip_level, call, assert.
  destruct (isinstance_Tensor tex); cbn; [|discriminate].
  destruct l as [n|]; cbn.
  - destruct (0 <=? n); cbn; [|discriminate].
    rewrite result_Vis. intros Hm. split; [reflexivity|]. exists n.
    split; [reflexivity|].
    destruct (h _) as [e|x]; [discriminate|]. now rewrite result_Ret in Hm.
  - rewrite result_Vis. intros Hm. split; [reflexivity|]. exists (-1).
    split; [reflexivity|].
    destruct (h _) as [e|x]; [discriminate|]. now rewrite result_Ret in Hm.
Qed.

(** C3.  Against any plugin, whenever
    [texture_construct_mip(tex, max_mip_level, cube_mode)] returns a
    pyramid, with [cube_mode] the flag [boundary_mode == 'cube'] the
    sampler itself uses, [texture] called with that pyramid as [mip]
    returns what [texture] called without [mip] returns on the same
    inputs: the same tensor and saved context, or the same exception. *)
Theorem texture_precomputed_mip_same_result `{Runtime} (h : handler)
    (tex uv uv_da : pyobj) (fm bm : string) (l : option Z)
    (m : TextureMipWrapper) :
  result h (texture_construct_mip tex l (PyBool (String.eqb bm "cube"))) = inr m ->
  result h (texture tex uv uv_da (PyTextureMip m) fm bm l) =
  result h (texture tex uv uv_da PyNone fm bm l).
Proof.
  intros Hm. apply texture_construct_mip_inr in Hm.
  destruct Hm as [Htex [n [Hl Hh]]].
  unfold texture. rewrite Hl, Htex.
  generalize (default_filter_mode fm uv_da) as f. intros f.
  cbn [bind andb].
  destruct (isinstance_Tensor uv); cbn [assert bind]; [|reflexivity].
  assert (Hpre : forall p q : prog (Tensor * texture_node),
            result h p = result h q ->
            result h ((if contains "mipmap" f then assert (isinstance_Tensor uv_da)
                       else Ret tt) ;; p) =
            result h ((if contains "mipmap" f then assert (isinstance_Tensor uv_da)
                       else Ret tt) ;; q)).
  { intros p q Hpq. rewrite !result_bind, Hpq. reflexivity. }
  apply Hpre. clear Hpre.
  cbv zeta.
  generalize (if (n =? 0) && in_list f mipmap_filter_modes then "linear" else f) as f'.
  intros f'. unfold subscript.
  destruct (dict_get filter_mode_dict f') as [fe|] eqn:Hfe; cbn [bind]; [|reflexivity].
  destruct (dict_get boundary_mode_dict bm) as [be|]; cbn [bind]; [|reflexivity].
  apply filter_mode_dict_cases in Hfe.
  destruct Hfe as [[-> _]|[[-> _]|[[-> _]|[-> _]]]]; cbn; try reflexivity;
    rewrite (result_Vis h _ (plugin_texture_construct_mip tex n _)), Hh;
    reflexivity.
Qed.

Lemma texture_precomputed_mip_same_result_witness :
  result Mock.plugin
    (texture Mock.t1 Mock.t2 Mock.t3 (PyTextureMip 103) "auto" "cube" (Some 3)) =
  result Mock.plugin (texture Mock.t1 Mock.t2 Mock.t3 PyNone "auto" "cube" (Some 3)).
Proof.
  apply (texture_precomputed_mip_same_result Mock.plugin
           Mock.t1 Mock.t2 Mock.t3 "auto" "cube" (Some 3) 103).
  reflexivity.
Defined.

(** The round trip on the mock plugin: the pyramid is built with level cap
    3 in cube mode, and both calls return the tensor of [texture_fwd_mip]
    with that pyramid saved for the backward pass. *)
Example texture_precomputed_mip_runs :
  result Mock.plugin (texture_construct_mip Mock.t1 (Some 3) (PyBool true)) = inr 103 /\
  result Mock.plugin
    (texture Mock.t1 Mock.t2 Mock.t3 (PyTextureMip 103) "auto" "cube" (Some 3)) =
    inr (31, node_texture_func_mip
               (mk_texture_mip_ctx Mock.t1 Mock.t2 Mock.t3 "linear-mipmap-linear"
                  (PyTextureMip 103) 3 0)) /\
  result Mock.plugin (texture Mock.t1 Mock.t2 Mock.t3 PyNone "auto" "cube" (Some 3)) =
    inr (31, node_texture_func_mip
               (mk_texture_mip_ctx Mock.t1 Mock.t2 Mock.t3 "linear-mipmap-linear"
                  (PyTextureMip 103) 3 0)).
Proof. repeat split. Qed.

(** ** The GL context: construction and the two manual-mode calls *)

(** What a successful construction tells about the object. *)
Lemma RasterizeGLContext__init___inr `{Runtime} (h : handler) (o : pyobj)
    (m : string) (g : RasterizeGLContext) :
  result h (RasterizeGLContext__init__ o m) = inr g ->
  o = PyBool (output_db g) /\ mode g = m /\
  in_list m ["automatic"; "manual"] = true.
Proof.
  unfold RasterizeGLContext__init__, assert_bool, assert, call.
  destruct o; cbn [bind]; try discriminate.
  destruct (in_list m ["automatic"; "manual"]); cbn [bind]; [|discriminate].
  rewrite result_Vis. destruct (h _) as [e|w]; [discriminate|].
  rewrite result_Ret. intros [= <-]. auto.
Qed.

(** C9.  On a context constructed in 'automatic' mode, [set_context] and
    [release_context] raise [AssertionError] without reaching the plugin;
    on a context constructed in 'manual' mode each is exactly the call of
    the plugin wrapper's method. *)
Theorem context_calls_by_mode `{Runtime} (h : handler) (o : pyobj) (m : string)
    (g : RasterizeGLContext) :
  result h (RasterizeGLContext__init__ o m) = inr g ->
  (m = "automatic" ->
   set_context g = Raise AssertionError /\
   release_context g = Raise AssertionError) /\
  (m = "manual" ->
   set_context g = call (plugin_set_context (cpp_wrapper g)) /\
   release_context g = call (plugin_release_context (cpp_wrapper g))).
Proof.
  intros Hg. apply RasterizeGLContext__init___inr in Hg.
  destruct Hg as [_ [Hm _]].
  unfold set_context, release_context. rewrite Hm.
  split; intros ->; split; reflexivity.
Qed.

Lemma context_calls_by_mode_witness :
  (set_context (mkRasterizeGLContext true "automatic" (true, true)) =
     Raise AssertionError /\
   release_context (mkRasterizeGLContext true "automatic" (true, true)) =
     Raise AssertionError) /\
  (set_context (mkRasterizeGLContext true "manual" (true, false)) =
     call (plugin_set_context (true, false)) /\
   release_context (mkRasterizeGLContext true "manual" (true, false)) =
     call (plugin_release_context (true, false))).
Proof.
  split.
  - refine (proj1 (context_calls_by_mode Mock.plugin (PyBool true) "automatic"
                     (mkRasterizeGLContext true "automatic" (true, true)) _) _);
      reflexivity.
  - refine (proj2 (context_calls_by_mode Mock.plugin (PyBool true) "manual"
                     (mkRasterizeGLContext true "manual" (true, false)) _) _);
      reflexivity.
Defined.

(** Construction and the two calls on the mock plugin. *)
Example context_calls_run :
  run Mock.plugin (RasterizeGLContext__init__ (PyBool true) "automatic") =
    ([plugin_RasterizeGLStateWrapper true true],
     inr (mkRasterizeGLContext true "automatic" (true, true))) /\
  run Mock.plugin (set_context (mkRasterizeGLContext true "automatic" (true, true))) =
    ([], inl AssertionError) /\
  run Mock.plugin (set_context (mkRasterizeGLContext true "manual" (true, false))) =
    ([plugin_set_context (true, false)], inr tt) /\
  run Mock.plugin (release_context (mkRasterizeGLContext true "manual" (true, false))) =
    ([plugin_release_context (true, false)], inr tt) /\
  run Mock.plugin (RasterizeGLContext__init__ (PyBool true) "auto") =
    ([], inl AssertionError).
Proof. repeat split. Qed.

(** ** Rasterize *)

(** C4.  On a context constructed with [output_db=False], a call of
    [rasterize] is the same program for either value of [grad_db].  With
    tensors for [pos] and [tri], and [ranges] absent or a tensor, that
    program is one call of [rasterize_fwd] followed by a return: the
    wrapper raises nothing, and the saved [grad_db] flag is [False].  The
    backward pass of that context is one call of [rasterize_grad], the
    plain barycentric path, and [ddb] reaches no plugin call. *)
Theorem rasterize_output_db_disabled `{Runtime} (h : handler) (m : string)
    (g : RasterizeGLContext) :
  result h (RasterizeGLContext__init__ (PyBool false) m) = inr g ->
  (forall (pos tri : pyobj) (resolution : list Z) (ranges : pyobj) (grad_db : bool),
     rasterize (PyGLContext g) pos tri resolution ranges (PyBool grad_db) =
     rasterize (PyGLContext g) pos tri resolution ranges (PyBool false)) /\
  (forall (pos tri : pyobj) (resolution : list Z) (ranges : pyobj) (grad_db : bool),
     isinstance_Tensor pos = true ->
     isinstance_Tensor tri = true ->
     ranges = PyNone \/ isinstance_Tensor ranges = true ->
     rasterize (PyGLContext g) pos tri resolution ranges (PyBool grad_db) =
       ('(out, out_db) <-
          call (plugin_rasterize_fwd (cpp_wrapper g) pos tri resolution
                  (if is_not_None ranges then ranges
                   else PyTensor torch_empty_ranges)) ;;
        Ret (out, out_db, mk_rasterize_ctx pos tri out false)) /\
     (forall (out : Tensor) (dy ddb : pyobj),
        _rasterize_func_backward (mk_rasterize_ctx pos tri out false) dy ddb =
          (g_pos <- call (plugin_rasterize_grad pos tri (PyTensor out) dy) ;;
           Ret (mk_rasterize_grads None (Some g_pos) None None None None)))).
Proof.
  intros Hg.
  apply RasterizeGLContext__init___inr in Hg. destruct Hg as [Hdb _].
  injection Hdb as Hdb.
  assert (Hflag : forall b : bool, b && output_db g = false).
  { intros b. rewrite <- Hdb. apply andb_false_r. }
  split.
  - intros pos tri resolution ranges grad_db.
    unfold rasterize, assert_bool. cbn [bind]. now rewrite !Hflag.
  - intros pos tri resolution ranges grad_db Hpos Htri Hranges.
    split; [|reflexivity].
    unfold rasterize, _rasterize_func_forward, assert_bool.
    cbn [bind]. rewrite Hflag, Hpos, Htri. cbn [andb assert bind].
    destruct Hranges as [->|Hr]; [reflexivity|].
    rewrite Hr. destruct ranges; try discriminate. reflexivity.
Qed.

Lemma rasterize_output_db_disabled_witness :
  rasterize (PyGLContext (mkRasterizeGLContext false "automatic" (false, true)))
    Mock.t1 Mock.t2 [4; 4] PyNone (PyBool true) =
  ('(out, out_db) <-
     call (plugin_rasterize_fwd (false, true) Mock.t1 Mock.t2 [4; 4] (PyTensor 0)) ;;
   Ret (out, out_db, mk_rasterize_ctx Mock.t1 Mock.t2 out false)).
Proof.
  refine (proj1 (proj2 (rasterize_output_db_disabled Mock.plugin "automatic"
                   (mkRasterizeGLContext false "automatic" (false, true)) _)
                   Mock.t1 Mock.t2 [4; 4] PyNone true _ _ _));
    try reflexivity.
  left. reflexivity.
Defined.

(** On the mock plugin: with [output_db=False] a request for derivative
    gradients ends in [rasterize_grad]; with [output_db=True] the same
    request ends in [rasterize_grad_db]. *)
Example rasterize_grad_db_runs :
  run Mock.plugin
    (rasterize (PyGLContext (mkRasterizeGLContext false "automatic" (false, true)))
       Mock.t1 Mock.t2 [4; 4] PyNone (PyBool true)) =
    ([plugin_rasterize_fwd (false, true) Mock.t1 Mock.t2 [4; 4] (PyTensor 0)],
     inr (10, 11, mk_rasterize_ctx Mock.t1 Mock.t2 10 false)) /\
  run Mock.plugin
    (_rasterize_func_backward (mk_rasterize_ctx Mock.t1 Mock.t2 10 false)
       Mock.t3 Mock.t4) =
    ([plugin_rasterize_grad Mock.t1 Mock.t2 (PyTensor 10) Mock.t3],
     inr (mk_rasterize_grads None (Some 12) None None None None)) /\
  run Mock.plugin
    (rasterize (PyGLContext (mkRasterizeGLContext true "automatic" (true, true)))
       Mock.t1 Mock.t2 [4; 4] PyNone (PyBool true)) =
    ([plugin_rasterize_fwd (true, true) Mock.t1 Mock.t2 [4; 4] (PyTensor 0)],
     inr (10, 11, mk_rasterize_ctx Mock.t1 Mock.t2 10 true)) /\
  run Mock.plugin
    (_rasterize_func_backward (mk_rasterize_ctx Mock.t1 Mock.t2 10 true)
       Mock.t3 Mock.t4) =
    ([plugin_rasterize_grad_db Mock.t1 Mock.t2 (PyTensor 10) Mock.t3 Mock.t4],
     inr (mk_rasterize_grads None (Some 13) None None None None)).
Proof. repeat split. Qed.

(** C7.  A rasterize backward pass returns whenever the plugin's gradient
    call does, and what it returns holds a gradient for [pos], the one the
    plugin computed, and [None] for [glctx], [tri], [resolution], [ranges]
    and [grad_db]. *)
Theorem rasterize_backward_gradient_for_pos_only `{Runtime} (h : handler)
    (ctx : rasterize_ctx) (dy ddb : pyobj) :
  (forall g_pos : Tensor,
     rasterize_grad_answer h ctx dy ddb = inr g_pos ->
     result h (_rasterize_func_backward ctx dy ddb) =
       inr (mk_rasterize_grads None (Some g_pos) None None None None)) /\
  (forall grads : rasterize_grads,
     result h (_rasterize_func_backward ctx dy ddb) = inr grads ->
     (exists g_pos : Tensor,
        rasterize_grad_answer h ctx dy ddb = inr g_pos /\
        rg_pos grads = Some g_pos) /\
     rg_glctx grads = None /\ rg_tri grads = None /\ rg_resolution grads = None /\
     rg_ranges grads = None /\ rg_grad_db grads = None).
Proof.
  assert (E : result h (_rasterize_func_backward ctx dy ddb) =
              match rasterize_grad_answer h ctx dy ddb with
              | inl e => inl e
              | inr g_pos =>
                  inr (mk_rasterize_grads None (Some g_pos) None None None None)
              end).
  { unfold _rasterize_func_backward, rasterize_grad_answer, call.
    destruct (saved_grad_db ctx); cbn [bind]; rewrite result_Vis;
      destruct (h _); reflexivity. }
  rewrite E. split.
  - intros g_pos ->. reflexivity.
  - intros grads. destruct (rasterize_grad_answer h ctx dy ddb) as [e|g_pos];
      [discriminate|].
    intros [= <-]. cbn. repeat split. exists g_pos. split; reflexivity.
Qed.

Lemma rasterize_backward_gradient_for_pos_only_witness :
  result Mock.plugin
    (_rasterize_func_backward (mk_rasterize_ctx Mock.t1 Mock.t2 10 true)
       Mock.t3 Mock.t4) =
  inr (mk_rasterize_grads None (Some 13) None None None None).
Proof.
  apply (proj1 (rasterize_backward_gradient_for_pos_only Mock.plugin
                  (mk_rasterize_ctx Mock.t1 Mock.t2 10 true) Mock.t3 Mock.t4)).
  reflexivity.
Defined.

(** ** Interpolate *)

(** C5.  In a call of [interpolate] on tensors [attr], [rast], [tri] whose
    [diff_attrs] passes lines 291-296 (the int32 conversion and the shape
    check), with [sel] the selection it comes to: when [sel] is non-empty ('all' or a non-empty list) the call
    is [_interpolate_func_da.apply] if [rast_db] is a tensor and raises
    [AssertionError] if it is not; when [sel] is empty ([diff_attrs]
    absent or the empty list) the call is [_interpolate_func.apply]
    whatever [rast_db] is.  So, against any plugin, the forward call with
    derivative output is made exactly when the selection is non-empty and
    [rast_db] is a tensor, and the one without exactly when the selection
    is empty. *)
Theorem interpolate_variant_selection `{Runtime} (attr rast tri rast_db : pyobj)
    (diff_attrs : diff_attrs_arg) (sel : diff_attrs_val) :
  forallb isinstance_Tensor [attr; rast; tri] = true ->
  sanitize_diff_attrs diff_attrs = Ret sel ->
  (truthy sel = true -> isinstance_Tensor rast_db = true ->
   interpolate attr rast tri rast_db diff_attrs =
     _interpolate_func_da_apply attr rast tri rast_db
       (if is_all sel then 1 else 0)
       (match sel with SelAll => [] | SelList items => items end)) /\
  (truthy sel = true -> isinstance_Tensor rast_db = false ->
   interpolate attr rast tri rast_db diff_attrs = Raise AssertionError) /\
  (truthy sel = false ->
   interpolate attr rast tri rast_db diff_attrs = _interpolate_func_apply attr rast tri) /\
  (forall h : handler,
     existsb is_interpolate_fwd_da
       (trace h (interpolate attr rast tri rast_db diff_attrs)) =
       truthy sel && isinstance_Tensor rast_db /\
     existsb is_interpolate_fwd
       (trace h (interpolate attr rast tri rast_db diff_attrs)) =
       negb (truthy sel)).
Proof.
  intros Hten Hsel.
  unfold interpolate. rewrite Hsel, Hten. cbn [bind assert].
  destruct (truthy sel); destruct (isinstance_Tensor rast_db); cbn [bind assert];
    repeat split; try discriminate; try reflexivity;
    unfold _interpolate_func_da_apply, _interpolate_func_da_forward,
      _interpolate_func_apply, _interpolate_func_forward, call; cbn [bind];
    rewrite ?trace_Raise, ?trace_Vis; cbn [existsb is_interpolate_fwd_da
      is_interpolate_fwd orb]; try reflexivity;
    destruct (h _) as [e|[out out_da]]; reflexivity.
Qed.

Lemma interpolate_variant_selection_witness :
  interpolate Mock.t1 Mock.t2 Mock.t3 Mock.t4 (DiffArray 1 [0; 2]) =
    _interpolate_func_da_apply Mock.t1 Mock.t2 Mock.t3 Mock.t4 0 [0; 2] /\
  interpolate Mock.t1 Mock.t2 Mock.t3 PyNone DiffAll = Raise AssertionError /\
  interpolate Mock.t1 Mock.t2 Mock.t3 PyNone (DiffArray 1 []) =
    _interpolate_func_apply Mock.t1 Mock.t2 Mock.t3.
Proof.
  split; [|split].
  - refine (proj1 (interpolate_variant_selection Mock.t1 Mock.t2 Mock.t3 Mock.t4
                     (DiffArray 1 [0; 2]) (SelList [0; 2]) _ _) _ _);
      reflexivity.
  - refine (proj1 (proj2 (interpolate_variant_selection Mock.t1 Mock.t2 Mock.t3 PyNone
                     DiffAll SelAll _ _)) _ _);
      reflexivity.
  - refine (proj1 (proj2 (proj2 (interpolate_variant_selection
                     Mock.t1 Mock.t2 Mock.t3 PyNone
                     (DiffArray 1 []) (SelList []) _ _))) _);
      reflexivity.
Defined.

(** The variants on the mock plugin: 'all' with [rast_db], a list with
    [rast_db], no selection with and without [rast_db], a selection
    without [rast_db], and a nested list. *)
Example interpolate_runs :
  run Mock.plugin (interpolate Mock.t1 Mock.t2 Mock.t3 Mock.t4 DiffAll) =
    ([plugin_interpolate_fwd_da Mock.t1 Mock.t2 Mock.t3 Mock.t4 1 []],
     inr (22, 23, node_interpolate_func_da
                    (mk_interpolate_da_ctx Mock.t1 Mock.t2 Mock.t3 Mock.t4 1 []))) /\
  run Mock.plugin (interpolate Mock.t1 Mock.t2 Mock.t3 Mock.t4 (DiffArray 1 [0; 2])) =
    ([plugin_interpolate_fwd_da Mock.t1 Mock.t2 Mock.t3 Mock.t4 0 [0; 2]],
     inr (22, 23, node_interpolate_func_da
                    (mk_interpolate_da_ctx Mock.t1 Mock.t2 Mock.t3 Mock.t4 0 [0; 2]))) /\
  run Mock.plugin (interpolate Mock.t1 Mock.t2 Mock.t3 Mock.t4 DiffNone) =
    ([plugin_interpolate_fwd Mock.t1 Mock.t2 Mock.t3],
     inr (20, 21, node_interpolate_func
                    (mk_interpolate_ctx Mock.t1 Mock.t2 Mock.t3))) /\
  run Mock.plugin (interpolate Mock.t1 Mock.t2 Mock.t3 PyNone (DiffArray 1 [])) =
    ([plugin_interpolate_fwd Mock.t1 Mock.t2 Mock.t3],
     inr (20, 21, node_interpolate_func
                    (mk_interpolate_ctx Mock.t1 Mock.t2 Mock.t3))) /\
  run Mock.plugin (interpolate Mock.t1 Mock.t2 Mock.t3 PyNone (DiffArray 1 [0])) =
    ([], inl AssertionError) /\
  run Mock.plugin (interpolate Mock.t1 Mock.t2 Mock.t3 Mock.t4 (DiffArray 2 [0; 1])) =
    ([], inl AssertionError).
Proof. repeat split. Qed.

(** The index list on the mock plugin: the largest int32 index reaches
    the plugin, the next integer and the one below the smallest are
    refused by the conversion, and so is a ragged list. *)
Example interpolate_index_conversion_runs :
  run Mock.plugin (interpolate Mock.t1 Mock.t2 Mock.t3 Mock.t4 (DiffArray 1 [2147483647])) =
    ([plugin_interpolate_fwd_da Mock.t1 Mock.t2 Mock.t3 Mock.t4 0 [2147483647]],
     inr (22, 23, node_interpolate_func_da
                    (mk_interpolate_da_ctx Mock.t1 Mock.t2 Mock.t3 Mock.t4 0
                       [2147483647]))) /\
  run Mock.plugin (interpolate Mock.t1 Mock.t2 Mock.t3 Mock.t4 (DiffArray 1 [2147483648])) =
    ([], inl OverflowError) /\
  run Mock.plugin
    (interpolate Mock.t1 Mock.t2 Mock.t3 Mock.t4 (DiffArray 1 [0; -2147483649])) =
    ([], inl OverflowError) /\
  run Mock.plugin (interpolate Mock.t1 Mock.t2 Mock.t3 Mock.t4 DiffRagged) =
    ([], inl ValueError).
Proof. repeat split. Qed.

(** ** Antialias *)

(** C6.  When the plugin's [antialias_grad] returns [(g_color, g_pos)], the
    backward pass returns: for [color] the gradient [g_color]; for [pos]
    the product [g_pos * pos_gradient_boost] when the boost differs from
    1.0 and [g_pos] itself when the boost is 1.0, which is that product
    as soon as multiplying a tensor by 1.0 leaves it unchanged; and [None]
    for [rast], [tri], [topology_hash] and [pos_gradient_boost]. *)
Theorem antialias_backward_pos_gradient_boost `{Runtime} (h : handler)
    (ctx : antialias_ctx) (dy : pyobj) (g_color g_pos : Tensor) :
  h (plugin_antialias_grad (aa_color ctx) (aa_rast ctx) (aa_pos ctx) (aa_tri ctx)
       dy (PyWorkBuffer (aa_work_buffer ctx))) = inr (g_color, g_pos) ->
  exists grads : antialias_grads,
    result h (_antialias_func_backward ctx dy) = inr grads /\
    ag_color grads = Some g_color /\
    (float_ne (aa_pos_gradient_boost ctx) 1%float = true ->
     ag_pos grads = Some (tensor_mul g_pos (aa_pos_gradient_boost ctx))) /\
    (float_ne (aa_pos_gradient_boost ctx) 1%float = false ->
     ag_pos grads = Some g_pos) /\
    ((forall (t : Tensor) (b : float),
        float_ne b 1%float = false -> tensor_mul t b = t) ->
     ag_pos grads = Some (tensor_mul g_pos (aa_pos_gradient_boost ctx))) /\
    ag_rast grads = None /\ ag_tri grads = None /\
    ag_topology_hash grads = None /\ ag_pos_gradient_boost grads = None.
Proof.
  intros Hh. unfold _antialias_func_backward, call. cbn [bind].
  rewrite result_Vis, Hh. cbn [bind]. rewrite result_Ret.
  eexists. split; [reflexivity|]. cbn.
  destruct (float_ne (aa_pos_gradient_boost ctx) 1%float) eqn:Hb;
    repeat split; try discriminate; try reflexivity.
  intros Hone. now rewrite (Hone _ _ Hb).
Qed.

Lemma antialias_backward_pos_gradient_boost_witness :
  exists grads : antialias_grads,
    result Mock.plugin
      (_antialias_func_backward
         (mk_antialias_ctx Mock.t1 Mock.t2 Mock.t3 Mock.t4 1%float 42) Mock.t1) =
      inr grads /\
    ag_pos grads = Some 44 /\ ag_tri grads = None /\ ag_topology_hash grads = None.
Proof.
  destruct (antialias_backward_pos_gradient_boost Mock.plugin
              (mk_antialias_ctx Mock.t1 Mock.t2 Mock.t3 Mock.t4 1%float 42)
              Mock.t1 43 44 eq_refl)
    as [grads [Hr [_ [_ [Hone [_ [_ [Htri [Hth _]]]]]]]]].
  exists grads. split; [exact Hr|]. split; [apply Hone; reflexivity|].
  split; assumption.
Defined.

(** The backward pass on the mock plugin, whose tensor product doubles a
    gradient for every boost other than 1.0: boost 1.0 returns the
    plugin's gradient 44, boost 2.5 the product 88. *)
Example antialias_backward_runs :
  run Mock.plugin
    (_antialias_func_backward
       (mk_antialias_ctx Mock.t1 Mock.t2 Mock.t3 Mock.t4 1%float 42) Mock.t1) =
    ([plugin_antialias_grad Mock.t1 Mock.t2 Mock.t3 Mock.t4 Mock.t1 (PyWorkBuffer 42)],
     inr (mk_antialias_grads (Some 43) None (Some 44) None None None)) /\
  run Mock.plugin
    (_antialias_func_backward
       (mk_antialias_ctx Mock.t1 Mock.t2 Mock.t3 Mock.t4 2.5%float 42) Mock.t1) =
    ([plugin_antialias_grad Mock.t1 Mock.t2 Mock.t3 Mock.t4 Mock.t1 (PyWorkBuffer 42)],
     inr (mk_antialias_grads (Some 43) None (Some 88) None None None)).
Proof. repeat split. Qed.

(** ** Further properties of the texture wrappers *)

Section TextureSuccess.
Context `{Runtime}.
Variable h : handler.

Lemma sanitize_max_mip_level_Ret (l : option Z) (n : Z) :
  sanitize_max_mip_level l = Ret n ->
  (l = None /\ n = -1) \/ (l = Some n /\ 0 <= n).
Proof.
  destruct l as [z|]; cbn.
  - destruct (0 <=? z) eqn:Hz; cbn; [|discriminate].
    intros [= <-]. right. split; [reflexivity|]. now apply Z.leb_le.
  - intros [= <-]. now left.
Qed.

Lemma sanitize_max_mip_level_cases (l : option Z) :
  (exists n : Z, sanitize_max_mip_level l = Ret n) \/
  sanitize_max_mip_level l = Raise AssertionError.
Proof.
  destruct l as [z|]; cbn.
  - destruct (0 <=? z); cbn; [left; now exists z|now right].
  - left. now exists (-1).
Qed.

(** [texture] after its sanitized level is known, with the effective
    filter mode named. *)
Lemma texture_unfold (tex uv uv_da mip : pyobj) (fm bm : string) (l : option Z)
    (n : Z) :
  sanitize_max_mip_level l = Ret n ->
  texture tex uv uv_da mip fm bm l =
    (assert (isinstance_Tensor tex && isinstance_Tensor uv) ;;
     (if contains "mipmap" (default_filter_mode fm uv_da)
      then assert (isinstance_Tensor uv_da) else Ret tt) ;;
     filter_mode_enum <- subscript filter_mode_dict (effective_filter_mode fm uv_da n) ;;
     boundary_mode_enum <- subscript boundary_mode_dict bm ;;
     mip <- (if contains "mipmap" (effective_filter_mode fm uv_da n) then
               if is_not_None mip then
                 assert (isinstance_TextureMipWrapper mip) ;; Ret mip
               else
                 m <- call (plugin_texture_construct_mip
                              tex n (String.eqb bm "cube")) ;;
                 Ret (PyTextureMip m)
             else Ret mip) ;;
     if String.eqb (effective_filter_mode fm uv_da n) "linear-mipmap-linear"
        || String.eqb (effective_filter_mode fm uv_da n) "linear-mipmap-nearest"
     then
       _texture_func_mip_apply (effective_filter_mode fm uv_da n) tex uv uv_da mip
         filter_mode_enum boundary_mode_enum
     else
       _texture_func_apply (effective_filter_mode fm uv_da n) tex uv
         filter_mode_enum boundary_mode_enum).
Proof.
  intros Hn. unfold texture, effective_filter_mode. rewrite Hn. reflexivity.
Qed.

(** The effective filter mode is a mipmap mode only when the level is not 0. *)
Lemma effective_filter_mode_mipmap (fm : string) (uv_da : pyobj) (n : Z) :
  in_list (effective_filter_mode fm uv_da n) mipmap_filter_modes = true ->
  n <> 0 /\ effective_filter_mode fm uv_da n = default_filter_mode fm uv_da.
Proof.
  unfold effective_filter_mode.
  destruct (n =? 0) eqn:Hn; cbn [andb].
  - destruct (in_list (default_filter_mode fm uv_da) mipmap_filter_modes) eqn:Hf.
    + discriminate.
    + now rewrite Hf.
  - intros _. apply Z.eqb_neq in Hn. now split.
Qed.

(** What a successful call of [texture] went through: every check, the
    pyramid it used, and the one sampling call whose tensor it returns. *)
Lemma texture_inr (tex uv uv_da mip : pyobj) (fm bm : string) (l : option Z)
    (out : Tensor) (node : texture_node) :
  result h (texture tex uv uv_da mip fm bm l) = inr (out, node) ->
  exists n fe be : Z,
    sanitize_max_mip_level l = Ret n /\
    isinstance_Tensor tex = true /\ isinstance_Tensor uv = true /\
    dict_get filter_mode_dict (effective_filter_mode fm uv_da n) = Some fe /\
    dict_get boundary_mode_dict bm = Some be /\
    ((in_list (effective_filter_mode fm uv_da n) mipmap_filter_modes = true /\
      isinstance_Tensor uv_da = true /\
      exists m : TextureMipWrapper,
        (mip = PyTextureMip m \/
         (mip = PyNone /\
          h (plugin_texture_construct_mip tex n (String.eqb bm "cube")) = inr m)) /\
        h (plugin_texture_fwd_mip tex uv uv_da (PyTextureMip m) fe be) = inr out /\
        node = node_texture_func_mip
                 (mk_texture_mip_ctx tex uv uv_da (effective_filter_mode fm uv_da n)
                    (PyTextureMip m) fe be)) \/
     (in_list (effective_filter_mode fm uv_da n) ["nearest"; "linear"] = true /\
      h (plugin_texture_fwd tex uv fe be) = inr out /\
      node = node_texture_func
               (mk_texture_ctx tex uv (effective_filter_mode fm uv_da n) fe be))).
Proof.
  destruct (sanitize_max_mip_level_cases l) as [[n Hn]|Hn].
  2:{ unfold texture. rewrite Hn. discriminate. }
  rewrite (texture_unfold _ _ _ _ _ _ _ _ Hn).
  unfold subscript, assert.
  destruct (isinstance_Tensor tex); cbn [andb bind]; [|discriminate].
  destruct (isinstance_Tensor uv); cbn [bind]; [|discriminate].
  intros Hr.
  assert (Hda : contains "mipmap" (default_filter_mode fm uv_da) = true ->
                isinstance_Tensor uv_da = true).
  { intros Hc. rewrite Hc in Hr. destruct (isinstance_Tensor uv_da);
      [reflexivity|discriminate]. }
  assert (Hr' : result h
            (match dict_get filter_mode_dict (effective_filter_mode fm uv_da n) with
             | Some fe =>
                 match dict_get boundary_mode_dict bm with
                 | Some be =>
                     mip' <- (if contains "mipmap" (effective_filter_mode fm uv_da n)
                              then
                                if is_not_None mip then
                                  (if isinstance_TextureMipWrapper mip then Ret tt
                                   else Raise AssertionError) ;; Ret mip
                                else
                                  m <- call (plugin_texture_construct_mip
                                               tex n (String.eqb bm "cube")) ;;
                                  Ret (PyTextureMip m)
                              else Ret mip) ;;
                     if String.eqb (effective_filter_mode fm uv_da n)
                          "linear-mipmap-linear"
                        || String.eqb (effective_filter_mode fm uv_da n)
                             "linear-mipmap-nearest"
                     then _texture_func_mip_apply (effective_filter_mode fm uv_da n)
                            tex uv uv_da mip' fe be
                     else _texture_func_apply (effective_filter_mode fm uv_da n)
                            tex uv fe be
                 | None => Raise (KeyError bm)
                 end
             | None => Raise (KeyError (effective_filter_mode fm uv_da n))
             end) = inr (out, node)).
  { destruct (contains "mipmap" (default_filter_mode fm uv_da));
      [destruct (isinstance_Tensor uv_da); [|discriminate]|];
      cbn [bind] in Hr;
      destruct (dict_get filter_mode_dict (effective_filter_mode fm uv_da n));
      try discriminate; cbn [bind] in Hr;
      destruct (dict_get boundary_mode_dict bm); try discriminate; exact Hr. }
  clear Hr.
  destruct (dict_get filter_mode_dict (effective_filter_mode fm uv_da n))
    as [fe|] eqn:Hfe; [|discriminate].
  destruct (dict_get boundary_mode_dict bm) as [be|] eqn:Hbe; [|discriminate].
  exists n, fe, be. split; [exact Hn|]. do 2 (split; [reflexivity|]).
  pose proof (filter_mode_dict_cases _ _ Hfe) as Hcases.
  assert (Hmip : in_list (effective_filter_mode fm uv_da n) mipmap_filter_modes = true ->
                 isinstance_Tensor uv_da = true).
  { intros Hm. destruct (effective_filter_mode_mipmap _ _ _ Hm) as [_ Heq].
    apply Hda. rewrite <- Heq.
    destruct (mipmap_filter_mode_cases _ Hm) as [E|E]; rewrite E; reflexivity. }
  clear Hda.
  unfold _texture_func_mip_apply, _texture_func_apply,
    _texture_func_mip_forward, _texture_func_forward, call, assert in Hr'.
  destruct Hcases as [[E _]|[[E _]|[[E _]|[E _]]]]; rewrite E in *; cbn in Hr';
    (split; [exact Hfe|]); (split; [reflexivity|]).
  - right. split; [reflexivity|]. rewrite result_Vis in Hr'.
    destruct (h _) as [e|x]; [discriminate|]. rewrite result_Ret in Hr'.
    injection Hr' as <- <-. now split.
  - right. split; [reflexivity|]. rewrite result_Vis in Hr'.
    destruct (h _) as [e|x]; [discriminate|]. rewrite result_Ret in Hr'.
    injection Hr' as <- <-. now split.
  - left. split; [reflexivity|]. split; [now apply Hmip|].
    destruct mip; cbn in Hr'; try discriminate.
    + rewrite result_Vis in Hr'.
      destruct (h (plugin_texture_construct_mip _ _ _)) as [e|m] eqn:Hc;
        [discriminate|].
      rewrite result_Vis in Hr'.
      destruct (h (plugin_texture_fwd_mip _ _ _ _ _ _)) as [e|x] eqn:Hf;
        [discriminate|].
      rewrite result_Ret in Hr'. injection Hr' as <- <-.
      exists m. split; [right; now split|]. now split.
    + rewrite result_Vis in Hr'.
      destruct (h (plugin_texture_fwd_mip _ _ _ _ _ _)) as [e|x] eqn:Hf;
        [discriminate|].
      rewrite result_Ret in Hr'. injection Hr' as <- <-.
      exists m. split; [now left|]. now split.
  - left. split; [reflexivity|]. split; [now apply Hmip|].
    destruct mip; cbn in Hr'; try discriminate.
    + rewrite result_Vis in Hr'.
      destruct (h (plugin_texture_construct_mip _ _ _)) as [e|m] eqn:Hc;
        [discriminate|].
      rewrite result_Vis in Hr'.
      destruct (h (plugin_texture_fwd_mip _ _ _ _ _ _)) as [e|x] eqn:Hf;
        [discriminate|].
      rewrite result_Ret in Hr'. injection Hr' as <- <-.
      exists m. split; [right; now split|]. now split.
    + rewrite result_Vis in Hr'.
      destruct (h (plugin_texture_fwd_mip _ _ _ _ _ _)) as [e|x] eqn:Hf;
        [discriminate|].
      rewrite result_Ret in Hr'. injection Hr' as <- <-.
      exists m. split; [now left|]. now split.
Qed.

End TextureSuccess.

(** X1.  A successful call of [texture] returns a node whose saved state is
    consistent: the saved filter mode is one of the two the stub's
    backward pass distinguishes (the mipmap modes for [_texture_func_mip],
    'nearest' and 'linear' for [_texture_func]), the saved enumerations are
    the dictionary values of the saved filter mode and of the boundary
    mode, the saved tensors are the call's, and for [_texture_func_mip]
    the saved pyramid is a [TextureMipWrapper], [uv_da] is a tensor and
    [max_mip_level] is not 0. *)
Theorem texture_returns_consistent_node `{Runtime} (h : handler)
    (tex uv uv_da mip : pyobj) (fm bm : string) (l : option Z)
    (out : Tensor) (node : texture_node) :
  result h (texture tex uv uv_da mip fm bm l) = inr (out, node) ->
  match node with
  | node_texture_func_mip ctx =>
      in_list (tm_filter_mode ctx) mipmap_filter_modes = true /\
      dict_get filter_mode_dict (tm_filter_mode ctx) = Some (tm_filter_mode_enum ctx) /\
      dict_get boundary_mode_dict bm = Some (tm_boundary_mode_enum ctx) /\
      isinstance_TextureMipWrapper (tm_mip ctx) = true /\
      tm_tex ctx = tex /\ tm_uv ctx = uv /\ tm_uv_da ctx = uv_da /\
      isinstance_Tensor uv_da = true /\ l <> Some 0
  | node_texture_func ctx =>
      in_list (tx_filter_mode ctx) ["nearest"; "linear"] = true /\
      dict_get filter_mode_dict (tx_filter_mode ctx) = Some (tx_filter_mode_enum ctx) /\
      dict_get boundary_mode_dict bm = Some (tx_boundary_mode_enum ctx) /\
      tx_tex ctx = tex /\ tx_uv ctx = uv
  end.
Proof.
  intros Hr. apply texture_inr in Hr.
  destruct Hr as [n [fe [be [Hn [_ [_ [Hfe [Hbe Hnode]]]]]]]].
  destruct Hnode as [[Hm [Hda [m [_ [_ ->]]]]]|[Hm [_ ->]]]; cbn.
  - repeat (split; [assumption || reflexivity|]).
    destruct (effective_filter_mode_mipmap _ _ _ Hm) as [Hn0 _].
    intros ->. cbn in Hn. injection Hn as <-. now apply Hn0.
  - repeat (split; [assumption || reflexivity|]). reflexivity.
Qed.

Lemma texture_returns_consistent_node_witness :
  in_list "linear" ["nearest"; "linear"] = true /\
  dict_get filter_mode_dict "linear" = Some 1 /\
  dict_get boundary_mode_dict "clamp" = Some 2 /\
  Mock.t1 = Mock.t1 /\ Mock.t2 = Mock.t2.
Proof.
  exact (texture_returns_consistent_node Mock.plugin
           Mock.t1 Mock.t2 Mock.t3 PyNone "auto" "clamp" (Some 0) 30
           (node_texture_func (mk_texture_ctx Mock.t1 Mock.t2 "linear" 1 2))
           eq_refl).
Defined.

(** X2.  After a successful call of [texture], the tensor returned is the
    plugin's answer to the sampling call of one filter mode, with that
    mode's enumeration and the boundary mode's, and the backward pass of
    the returned node asks the plugin for the gradient of that same mode
    on the same tensors, enumerations and (for the mipmap stub) pyramid.
    'nearest' yields a gradient for [tex] only, 'linear' and
    'linear-mipmap-nearest' for [tex] and [uv], 'linear-mipmap-linear' for
    [tex], [uv] and [uv_da]; the backward pass returns exactly when that
    plugin call does. *)
Theorem texture_backward_after_texture `{Runtime} (h : handler)
    (tex uv uv_da mip : pyobj) (fm bm : string) (l : option Z)
    (out : Tensor) (node : texture_node) (dy : pyobj) :
  result h (texture tex uv uv_da mip fm bm l) = inr (out, node) ->
  match node with
  | node_texture_func ctx =>
      dict_get boundary_mode_dict bm = Some (tx_boundary_mode_enum ctx) /\
      ((tx_filter_mode ctx = "nearest" /\
        h (plugin_texture_fwd tex uv 0 (tx_boundary_mode_enum ctx)) = inr out /\
        result h (_texture_func_backward ctx dy) =
          match h (plugin_texture_grad_nearest tex uv dy 0
                     (tx_boundary_mode_enum ctx)) with
          | inl e => inl e
          | inr g_tex => inr (mk_texture_grads None (Some g_tex) None None None)
          end) \/
       (tx_filter_mode ctx = "linear" /\
        h (plugin_texture_fwd tex uv 1 (tx_boundary_mode_enum ctx)) = inr out /\
        result h (_texture_func_backward ctx dy) =
          match h (plugin_texture_grad_linear tex uv dy 1
                     (tx_boundary_mode_enum ctx)) with
          | inl e => inl e
          | inr (g_tex, g_uv) =>
              inr (mk_texture_grads None (Some g_tex) (Some g_uv) None None)
          end))
  | node_texture_func_mip ctx =>
      dict_get boundary_mode_dict bm = Some (tm_boundary_mode_enum ctx) /\
      ((tm_filter_mode ctx = "linear-mipmap-nearest" /\
        h (plugin_texture_fwd_mip tex uv uv_da (tm_mip ctx) 2
             (tm_boundary_mode_enum ctx)) = inr out /\
        result h (_texture_func_mip_backward ctx dy) =
          match h (plugin_texture_grad_linear_mipmap_nearest tex uv dy uv_da
                     (tm_mip ctx) 2 (tm_boundary_mode_enum ctx)) with
          | inl e => inl e
          | inr (g_tex, g_uv) =>
              inr (mk_texture_mip_grads None (Some g_tex) (Some g_uv) None
                     None None None)
          end) \/
       (tm_filter_mode ctx = "linear-mipmap-linear" /\
        h (plugin_texture_fwd_mip tex uv uv_da (tm_mip ctx) 3
             (tm_boundary_mode_enum ctx)) = inr out /\
        result h (_texture_func_mip_backward ctx dy) =
          match h (plugin_texture_grad_linear_mipmap_linear tex uv dy uv_da
                     (tm_mip ctx) 3 (tm_boundary_mode_enum ctx)) with
          | inl e => inl e
          | inr (g_tex, g_uv, g_uv_da) =>
              inr (mk_texture_mip_grads None (Some g_tex) (Some g_uv) (Some g_uv_da)
                     None None None)
          end))
  end.
Proof.
  intros Hr. apply texture_inr in Hr.
  destruct Hr as [n [fe [be [_ [_ [_ [Hfe [Hbe Hnode]]]]]]]].
  apply filter_mode_dict_cases in Hfe.
  destruct Hnode as [[Hm [_ [m [_ [Hf ->]]]]]|[Hm [Hf ->]]];
    destruct Hfe as [[E ->]|[[E ->]|[[E ->]|[E ->]]]]; rewrite E in *;
    try discriminate;
    unfold _texture_func_backward, _texture_func_mip_backward, call; cbn;
    (split; [exact Hbe|]);
    [left|right|left|right]; (split; [reflexivity|]); (split; [exact Hf|]);
    rewrite result_Vis.
  - destruct (h (plugin_texture_grad_linear_mipmap_nearest _ _ _ _ _ _ _))
      as [e|[g_tex g_uv]]; reflexivity.
  - destruct (h (plugin_texture_grad_linear_mipmap_linear _ _ _ _ _ _ _))
      as [e|[[g_tex g_uv] g_uv_da]]; reflexivity.
  - destruct (h (plugin_texture_grad_nearest _ _ _ _ _)) as [e|g_tex];
      reflexivity.
  - destruct (h (plugin_texture_grad_linear _ _ _ _ _)) as [e|[g_tex g_uv]];
      reflexivity.
Qed.

Lemma texture_backward_after_texture_witness :
  Mock.plugin (plugin_texture_fwd Mock.t1 Mock.t2 0 1) = inr 30 /\
  result Mock.plugin
    (_texture_func_backward (mk_texture_ctx Mock.t1 Mock.t2 "nearest" 0 1) Mock.t4) =
    inr (mk_texture_grads None (Some 32) None None None).
Proof.
  destruct (texture_backward_after_texture Mock.plugin
              Mock.t1 Mock.t2 PyNone PyNone "nearest" "wrap" None 30
              (node_texture_func (mk_texture_ctx Mock.t1 Mock.t2 "nearest" 0 1))
              Mock.t4 eq_refl) as [_ [[_ [Hf E]]|[E _]]].
  - split; [exact Hf|exact E].
  - discriminate E.
Defined.



(** The failing lookups on the mock plugin: an unknown boundary mode and an
    unknown filter mode raise [KeyError] of that mode, a negative level
    [AssertionError]; none reaches the plugin. *)
Example texture_failed_checks_run :
  run Mock.plugin (texture Mock.t1 Mock.t2 PyNone PyNone "linear" "mirror" None) =
    ([], inl (KeyError "mirror")) /\
  run Mock.plugin (texture Mock.t1 Mock.t2 PyNone PyNone "cubic" "wrap" None) =
    ([], inl (KeyError "cubic")) /\
  run Mock.plugin (texture Mock.t1 Mock.t2 PyNone PyNone "linear" "wrap" (Some (-1))) =
    ([], inl AssertionError) /\
  run Mock.plugin (texture Mock.t1 Mock.t2 Mock.t3 (PyInt 3) "auto" "wrap" None) =
    ([], inl AssertionError).
Proof. repeat split. Qed.

(** X4.  With filter mode 'nearest' or 'linear', [uv_da] and [mip] are
    never looked at: the call is the same program whatever they are, a
    [mip] that is no pyramid included. *)
Theorem texture_nonmip_ignores_uv_da_and_mip `{Runtime}
    (tex uv uv_da mip : pyobj) (fm bm : string) (l : option Z) :
  in_list fm ["nearest"; "linear"] = true ->
  texture tex uv uv_da mip fm bm l = texture tex uv PyNone PyNone fm bm l.
Proof.
  intros Hfm.
  assert (E : fm = "nearest" \/ fm = "linear").
  { unfold in_list in Hfm. cbn in Hfm.
    destruct (String.eqb_spec fm "nearest") as [E|_]; [now left|].
    destruct (String.eqb_spec fm "linear") as [E|_]; [now right|].
    discriminate. }
  unfold texture.
  destruct E as [-> | ->];
    rewrite !default_filter_mode_explicit by reflexivity;
    destruct l as [z|]; cbn;
    try (destruct (0 <=? z); cbn; [|reflexivity];
         rewrite andb_false_r);
    reflexivity.
Qed.

Lemma texture_nonmip_ignores_uv_da_and_mip_witness :
  texture Mock.t1 Mock.t2 Mock.t3 (PyInt 3) "nearest" "wrap" (Some 2) =
  texture Mock.t1 Mock.t2 PyNone PyNone "nearest" "wrap" (Some 2).
Proof.
  apply (texture_nonmip_ignores_uv_da_and_mip
           Mock.t1 Mock.t2 Mock.t3 (PyInt 3) "nearest" "wrap" (Some 2)).
  reflexivity.
Defined.

(** X5.  The level cap the plugin's [texture_construct_mip] receives is
    never below -1: through [texture_construct_mip] it is -1 or the
    caller's non-negative level, and through [texture] it is -1 or
    positive, because a level of 0 turns every mipmap mode into 'linear'
    before a pyramid is built. *)
Theorem construct_mip_level_bounds `{Runtime} (h : handler)
    (tex uv uv_da mip cube_mode : pyobj) (fm bm : string) (l : option Z) :
  Forall construct_mip_level_uncapped_or_positive
    (trace h (texture tex uv uv_da mip fm bm l)) /\
  Forall construct_mip_level_valid
    (trace h (texture_construct_mip tex l cube_mode)).
Proof.
  split.
  - destruct (sanitize_max_mip_level_cases l) as [[n Hn]|Hn].
    2:{ unfold texture. rewrite Hn. cbn [bind]. rewrite trace_Raise. constructor. }
    rewrite (texture_unfold _ _ _ _ _ _ _ _ Hn).
    unfold subscript, assert.
    destruct (isinstance_Tensor tex && isinstance_Tensor uv); cbn [bind];
      [|rewrite trace_Raise; constructor].
    assert (Hpre : forall p : prog (Tensor * texture_node),
              Forall construct_mip_level_uncapped_or_positive (trace h p) ->
              Forall construct_mip_level_uncapped_or_positive
                (trace h ((if contains "mipmap" (default_filter_mode fm uv_da)
                           then if isinstance_Tensor uv_da then Ret tt
                                else Raise AssertionError
                           else Ret tt) ;; p))).
    { intros p Hp.
      destruct (contains "mipmap" (default_filter_mode fm uv_da));
        [destruct (isinstance_Tensor uv_da)|]; cbn [bind];
        rewrite ?trace_Raise; try constructor; exact Hp. }
    apply Hpre. clear Hpre.
    destruct (dict_get filter_mode_dict (effective_filter_mode fm uv_da n))
      as [fe|] eqn:Hfe; cbn [bind]; [|rewrite trace_Raise; constructor].
    destruct (dict_get boundary_mode_dict bm) as [be|]; cbn [bind];
      [|rewrite trace_Raise; constructor].
    unfold _texture_func_mip_apply, _texture_func_apply,
      _texture_func_mip_forward, _texture_func_forward, call.
    destruct (filter_mode_dict_cases _ _ Hfe) as [[E _]|[[E _]|[[E _]|[E _]]]].
    1,2: rewrite E; cbn; rewrite trace_Vis;
      (constructor; [exact I|]); destruct (h _); rewrite ?trace_Ret; constructor.
    all: assert (Hlevel : n = -1 \/ 0 < n)
      by (destruct (effective_filter_mode_mipmap fm uv_da n) as [Hn0 _];
          [rewrite E; reflexivity|];
          destruct (sanitize_max_mip_level_Ret _ _ Hn) as [[_ Hv]|[_ Hv]]; lia).
    all: rewrite E; cbn; destruct mip; cbn; rewrite ?trace_Raise;
      try constructor; rewrite ?trace_Vis; try exact Hlevel; try exact I.
    all: repeat first
      [ apply Forall_nil
      | apply Forall_cons; [first [exact Hlevel | exact I]|]
      | rewrite trace_Vis | rewrite trace_Ret
      | match goal with
        | |- context [match ?h ?c with inl _ => _ | inr _ => _ end] => destruct (h c)
        end ].
  - unfold texture_construct_mip, assert_bool, assert, call.
    destruct (isinstance_Tensor tex); cbn [bind];
      [|rewrite trace_Raise; constructor].
    destruct cube_mode; cbn [bind]; rewrite ?trace_Raise; try constructor.
    destruct (sanitize_max_mip_level_cases l) as [[n Hn]|Hn]; rewrite Hn;
      cbn [bind]; [|rewrite trace_Raise; constructor].
    rewrite trace_Vis. constructor.
    + cbn. destruct (sanitize_max_mip_level_Ret _ _ Hn) as [[_ Hv]|[_ Hv]]; lia.
    + destruct (h _); rewrite ?trace_Ret; constructor.
Qed.

(** ** Further properties of the GL context and of rasterize *)

(** X6.  A context object exists only for a boolean [output_db] and a mode
    that is 'automatic' or 'manual', and its C++ wrapper is the one the
    plugin built for that [output_db] and for the flag
    [mode == 'automatic']: the Python-side mode and the plugin-side mode
    agree.  Any other argument raises [AssertionError] before the plugin
    is asked for a GL context. *)
Theorem RasterizeGLContext__init___consistent `{Runtime} (h : handler)
    (o : pyobj) (m : string) :
  (forall g : RasterizeGLContext,
     result h (RasterizeGLContext__init__ o m) = inr g ->
     o = PyBool (output_db g) /\ mode g = m /\
     (m = "automatic" \/ m = "manual") /\
     h (plugin_RasterizeGLStateWrapper (output_db g)
          (String.eqb (mode g) "automatic")) = inr (cpp_wrapper g)) /\
  ((forall b : bool, o <> PyBool b) \/ in_list m ["automatic"; "manual"] = false ->
   RasterizeGLContext__init__ o m = Raise AssertionError).
Proof.
  unfold RasterizeGLContext__init__, assert_bool, assert, call. split.
  - intros g. destruct o; cbn [bind]; try discriminate.
    destruct (in_list m ["automatic"; "manual"]) eqn:Hm; cbn [bind];
      [|discriminate].
    rewrite result_Vis.
    destruct (h (plugin_RasterizeGLStateWrapper _ _)) as [e|w] eqn:Hw;
      [discriminate|].
    rewrite result_Ret. intros [= <-]. cbn. repeat split; try assumption.
    unfold in_list in Hm. cbn in Hm.
    destruct (String.eqb_spec m "automatic") as [E|_]; [now left|].
    destruct (String.eqb_spec m "manual") as [E|_]; [now right|].
    discriminate.
  - intros [Ho|Hm].
    + destruct o; try reflexivity. now elim (Ho b).
    + destruct o; try reflexivity. cbn [bind]. now rewrite Hm.
Qed.

Lemma RasterizeGLContext__init___consistent_witness :
  RasterizeGLContext__init__ (PyBool true) "Manual" = Raise AssertionError /\
  RasterizeGLContext__init__ (PyInt 1) "manual" = Raise AssertionError /\
  Mock.plugin (plugin_RasterizeGLStateWrapper false false) = inr (false, false).
Proof.
  split; [|split].
  - apply (proj2 (RasterizeGLContext__init___consistent Mock.plugin
                    (PyBool true) "Manual")).
    right. reflexivity.
  - apply (proj2 (RasterizeGLContext__init___consistent Mock.plugin
                    (PyInt 1) "manual")).
    left. discriminate.
  - apply (proj1 (RasterizeGLContext__init___consistent Mock.plugin
                    (PyBool false) "manual")
             (@mkRasterizeGLContext Mock.runtime false "manual" (false, false))).
    reflexivity.
Defined.

Section RasterizeSuccess.
Context `{Runtime}.
Variable h : handler.

(** What a successful call of [rasterize] went through. *)
Lemma rasterize_inr (glctx pos tri : pyobj) (resolution : list Z)
    (ranges grad_db : pyobj) (out out_db : Tensor) (ctx : rasterize_ctx) :
  result h (rasterize glctx pos tri resolution ranges grad_db) = inr (out, out_db, ctx) ->
  exists (g : RasterizeGLContext) (b : bool),
    glctx = PyGLContext g /\ grad_db = PyBool b /\
    isinstance_Tensor pos = true /\ isinstance_Tensor tri = true /\
    (ranges = PyNone \/ isinstance_Tensor ranges = true) /\
    h (plugin_rasterize_fwd (cpp_wrapper g) pos tri resolution
         (if is_not_None ranges then ranges else PyTensor torch_empty_ranges)) =
      inr (out, out_db) /\
    ctx = mk_rasterize_ctx pos tri out (b && output_db g).
Proof.
  unfold rasterize, _rasterize_func_forward, assert_bool, assert, call.
  destruct glctx; cbn [bind]; try discriminate.
  destruct grad_db; cbn [bind]; try discriminate.
  destruct (isinstance_Tensor pos); cbn [andb bind]; [|discriminate].
  destruct (isinstance_Tensor tri); cbn [bind]; [|discriminate].
  intros Hr. exists g, b. do 4 (split; [reflexivity|]).
  destruct ranges; cbn in Hr; try discriminate.
  - rewrite result_Vis in Hr.
    destruct (h _) as [e|[o1 o2]] eqn:Hf; [discriminate|].
    rewrite result_Ret in Hr. injection Hr as <- <- <-.
    split; [now left|]. split; reflexivity.
  - rewrite result_Vis in Hr.
    destruct (h _) as [e|[o1 o2]] eqn:Hf; [discriminate|].
    rewrite result_Ret in Hr. injection Hr as <- <- <-.
    split; [now right|]. split; reflexivity.
Qed.

End RasterizeSuccess.

(** X7.  After a successful [rasterize], the backward pass of its context
    calls [rasterize_grad_db] exactly when [grad_db] was requested and the
    context has [output_db] enabled, and [rasterize_grad] otherwise, on
    the call's [pos] and [tri] and on the very tensor the forward pass
    returned; it returns a gradient for [pos] alone. *)
Theorem rasterize_backward_after_rasterize `{Runtime} (h : handler)
    (g : RasterizeGLContext) (pos tri : pyobj) (resolution : list Z)
    (ranges : pyobj) (b : bool) (out out_db : Tensor) (ctx : rasterize_ctx)
    (dy ddb : pyobj) :
  result h (rasterize (PyGLContext g) pos tri resolution ranges (PyBool b)) =
    inr (out, out_db, ctx) ->
  result h (_rasterize_func_backward ctx dy ddb) =
    match (if b && output_db g
           then h (plugin_rasterize_grad_db pos tri (PyTensor out) dy ddb)
           else h (plugin_rasterize_grad pos tri (PyTensor out) dy)) with
    | inl e => inl e
    | inr g_pos => inr (mk_rasterize_grads None (Some g_pos) None None None None)
    end.
Proof.
  intros Hr. apply rasterize_inr in Hr.
  destruct Hr as [g' [b' [Hg [Hb [_ [_ [_ [_ ->]]]]]]]].
  injection Hg as <-. injection Hb as <-.
  unfold _rasterize_func_backward, call. cbn.
  destruct (b && output_db g); cbn [bind]; rewrite result_Vis;
    destruct (h _); reflexivity.
Qed.

Lemma rasterize_backward_after_rasterize_witness :
  result Mock.plugin
    (_rasterize_func_backward (mk_rasterize_ctx Mock.t1 Mock.t2 10 true)
       Mock.t3 Mock.t4) =
  inr (mk_rasterize_grads None (Some 13) None None None None).
Proof.
  exact (rasterize_backward_after_rasterize Mock.plugin
           (mkRasterizeGLContext true "automatic" (true, true))
           Mock.t1 Mock.t2 [4; 4] PyNone true 10 11
           (mk_rasterize_ctx Mock.t1 Mock.t2 10 true) Mock.t3 Mock.t4 eq_refl).
Defined.

(** X8.  For a [resolution] that is a sequence of integers, [rasterize]
    reaches the plugin exactly when [glctx] is a [RasterizeGLContext],
    [grad_db] is a boolean, [pos] and [tri] are tensors and [ranges] is
    [None] or a tensor; it then makes one call, [rasterize_fwd] on the
    context's wrapper, with an empty tensor in place of an absent
    [ranges].  Otherwise it raises [AssertionError] with no plugin call
    made. *)
Theorem rasterize_validates_before_plugin `{Runtime} (h : handler)
    (glctx pos tri : pyobj) (resolution : list Z) (ranges grad_db : pyobj) :
  (trace h (rasterize glctx pos tri resolution ranges grad_db) <> [] ->
   exists (g : RasterizeGLContext) (b : bool),
     glctx = PyGLContext g /\ grad_db = PyBool b /\
     isinstance_Tensor pos = true /\ isinstance_Tensor tri = true /\
     (ranges = PyNone \/ isinstance_Tensor ranges = true)) /\
  (forall (g : RasterizeGLContext) (b : bool),
     glctx = PyGLContext g -> grad_db = PyBool b ->
     isinstance_Tensor pos = true -> isinstance_Tensor tri = true ->
     ranges = PyNone \/ isinstance_Tensor ranges = true ->
     trace h (rasterize glctx pos tri resolution ranges grad_db) =
       [plugin_rasterize_fwd (cpp_wrapper g) pos tri resolution
          (if is_not_None ranges then ranges else PyTensor torch_empty_ranges)]) /\
  (trace h (rasterize glctx pos tri resolution ranges grad_db) = [] ->
   rasterize glctx pos tri resolution ranges grad_db = Raise AssertionError).
Proof.
  unfold rasterize, _rasterize_func_forward, assert_bool, assert, call.
  split; [|split].
  - destruct glctx; cbn [bind]; try (intros Ht; now elim Ht).
    destruct grad_db; cbn [bind]; try (intros Ht; now elim Ht).
    destruct (isinstance_Tensor pos); cbn [andb bind];
      [|intros Ht; now elim Ht].
    destruct (isinstance_Tensor tri); cbn [bind]; [|intros Ht; now elim Ht].
    intros Ht. exists g, b. do 4 (split; [reflexivity|]).
    destruct ranges; cbn in Ht; try (now elim Ht); auto.
  - intros g b -> -> Hpos Htri Hranges. cbn [bind].
    rewrite Hpos, Htri. cbn [andb bind].
    destruct Hranges as [->|Hr].
    + cbn. rewrite trace_Vis. destruct (h _) as [e|[o1 o2]]; reflexivity.
    + destruct ranges; try discriminate. cbn. rewrite trace_Vis.
      destruct (h _) as [e|[o1 o2]]; reflexivity.
  - destruct glctx; cbn [bind]; try reflexivity.
    destruct grad_db; cbn [bind]; try reflexivity.
    destruct (isinstance_Tensor pos); cbn [andb bind]; [|reflexivity].
    destruct (isinstance_Tensor tri); cbn [bind]; [|reflexivity].
    destruct ranges; cbn; try reflexivity; rewrite trace_Vis; discriminate.
Qed.

Lemma rasterize_validates_before_plugin_witness :
  trace Mock.plugin
    (rasterize (PyGLContext (mkRasterizeGLContext true "manual" (true, false)))
       Mock.t1 Mock.t2 [8; 8] PyNone (PyBool false)) =
  [plugin_rasterize_fwd (true, false) Mock.t1 Mock.t2 [8; 8] (PyTensor 0)].
Proof.
  apply (proj1 (proj2 (rasterize_validates_before_plugin Mock.plugin
           (PyGLContext
              (@mkRasterizeGLContext Mock.runtime true "manual" (true, false)))
           Mock.t1 Mock.t2 [8; 8] PyNone (PyBool false)))
           (@mkRasterizeGLContext Mock.runtime true "manual" (true, false)) false);
    try reflexivity.
  left. reflexivity.
Defined.

(** ** Further properties of antialias *)

Section AntialiasSuccess.
Context `{Runtime}.
Variable h : handler.

(** What a successful [antialias_construct_topology_hash] tells. *)
Lemma antialias_construct_topology_hash_inr (tri : pyobj) (th : TopologyHashWrapper) :
  result h (antialias_construct_topology_hash tri) = inr th ->
  isinstance_Tensor tri = true /\
  h (plugin_antialias_construct_topology_hash tri) = inr th.
Proof.
  unfold antialias_construct_topology_hash, assert, call.
  destruct (isinstance_Tensor tri); cbn [bind]; [|discriminate].
  rewrite result_Vis. destruct (h _) as [e|x]; [discriminate|].
  rewrite result_Ret. intros [= <-]. now split.
Qed.

(** What a successful call of [antialias] went through. *)
Lemma antialias_inr (color rast pos tri topology_hash : pyobj) (boost : float)
    (out : Tensor) (ctx : antialias_ctx) :
  result h (antialias color rast pos tri topology_hash boost) = inr (out, ctx) ->
  forallb isinstance_Tensor [color; rast; pos; tri] = true /\
  exists (th : TopologyHashWrapper) (work_buffer : WorkBuffer),
    (topology_hash = PyTopologyHash th \/
     (topology_hash = PyNone /\
      h (plugin_antialias_construct_topology_hash tri) = inr th)) /\
    h (plugin_antialias_fwd color rast pos tri (PyTopologyHash th)) =
      inr (out, work_buffer) /\
    ctx = mk_antialias_ctx color rast pos tri boost work_buffer.
Proof.
  unfold antialias, _antialias_func_forward, assert, call.
  destruct (forallb isinstance_Tensor [color; rast; pos; tri]); cbn [bind];
    [|discriminate].
  intros Hr. split; [reflexivity|].
  destruct topology_hash; cbn in Hr; try discriminate.
  - rewrite result_Vis in Hr.
    destruct (h (plugin_antialias_construct_topology_hash tri)) as [e|th] eqn:Hc;
      [discriminate|].
    rewrite result_Vis in Hr.
    destruct (h (plugin_antialias_fwd _ _ _ _ _)) as [e|[o wb]] eqn:Hf;
      [discriminate|].
    rewrite result_Ret in Hr. injection Hr as <- <-.
    exists th, wb. split; [right; now split|]. now split.
  - rewrite result_Vis in Hr.
    destruct (h (plugin_antialias_fwd _ _ _ _ _)) as [e|[o wb]] eqn:Hf;
      [discriminate|].
    rewrite result_Ret in Hr. injection Hr as <- <-.
    exists h0, wb. split; [now left|]. now split.
Qed.

End AntialiasSuccess.

(** X9.  Against any plugin, whenever
    [antialias_construct_topology_hash(tri)] returns a topology hash,
    [antialias] called with that hash returns what [antialias] called
    without one returns on the same inputs: the same tensor and saved
    context, or the same exception. *)
Theorem antialias_precomputed_topology_hash_same_result `{Runtime} (h : handler)
    (color rast pos tri : pyobj) (boost : float) (th : TopologyHashWrapper) :
  result h (antialias_construct_topology_hash tri) = inr th ->
  result h (antialias color rast pos tri (PyTopologyHash th) boost) =
  result h (antialias color rast pos tri PyNone boost).
Proof.
  intros Hth. apply antialias_construct_topology_hash_inr in Hth.
  destruct Hth as [_ Hc].
  unfold antialias, _antialias_func_forward, assert, call.
  destruct (forallb isinstance_Tensor [color; rast; pos; tri]); cbn [bind];
    [|reflexivity].
  cbn. rewrite (result_Vis h _ (plugin_antialias_construct_topology_hash tri)), Hc.
  reflexivity.
Qed.

Lemma antialias_precomputed_topology_hash_same_result_witness :
  result Mock.plugin
    (antialias Mock.t1 Mock.t2 Mock.t3 Mock.t4 (PyTopologyHash 40) 1%float) =
  result Mock.plugin (antialias Mock.t1 Mock.t2 Mock.t3 Mock.t4 PyNone 1%float).
Proof.
  apply (antialias_precomputed_topology_hash_same_result Mock.plugin
           Mock.t1 Mock.t2 Mock.t3 Mock.t4 1%float 40).
  reflexivity.
Defined.

(** X10.  After a successful [antialias], the backward pass of its context
    calls [antialias_grad] on the call's [color], [rast], [pos], [tri] and
    on the work buffer the forward pass of that very call got from
    [antialias_fwd], and scales the position gradient by the call's
    [pos_gradient_boost]. *)
Theorem antialias_backward_after_antialias `{Runtime} (h : handler)
    (color rast pos tri topology_hash : pyobj) (boost : float)
    (out : Tensor) (ctx : antialias_ctx) :
  result h (antialias color rast pos tri topology_hash boost) = inr (out, ctx) ->
  exists (th : TopologyHashWrapper) (work_buffer : WorkBuffer),
    h (plugin_antialias_fwd color rast pos tri (PyTopologyHash th)) =
      inr (out, work_buffer) /\
    forall dy : pyobj,
      result h (_antialias_func_backward ctx dy) =
        match h (plugin_antialias_grad color rast pos tri dy
                   (PyWorkBuffer work_buffer)) with
        | inl e => inl e
        | inr (g_color, g_pos) =>
            inr (mk_antialias_grads (Some g_color) None
                   (Some (if float_ne boost 1%float then tensor_mul g_pos boost
                          else g_pos))
                   None None None)
        end.
Proof.
  intros Hr. apply antialias_inr in Hr.
  destruct Hr as [_ [th [wb [_ [Hf ->]]]]].
  exists th, wb. split; [exact Hf|].
  intros dy. unfold _antialias_func_backward, call. cbn.
  rewrite result_Vis.
  destruct (h (plugin_antialias_grad _ _ _ _ _ _)) as [e|[g_color g_pos]];
    reflexivity.
Qed.

Lemma antialias_backward_after_antialias_witness :
  exists (th : TopologyHashWrapper) (work_buffer : WorkBuffer),
    Mock.plugin (plugin_antialias_fwd Mock.t1 Mock.t2 Mock.t3 Mock.t4
                   (PyTopologyHash th)) = inr (41, work_buffer) /\
    forall dy : pyobj,
      result Mock.plugin
        (_antialias_func_backward
           (mk_antialias_ctx Mock.t1 Mock.t2 Mock.t3 Mock.t4 2.5%float 42) dy) =
        match Mock.plugin (plugin_antialias_grad Mock.t1 Mock.t2 Mock.t3 Mock.t4 dy
                             (PyWorkBuffer work_buffer)) with
        | inl e => inl e
        | inr (g_color, g_pos) =>
            inr (mk_antialias_grads (Some g_color) None
                   (Some (if float_ne 2.5%float 1%float
                          then tensor_mul g_pos 2.5%float else g_pos))
                   None None None)
        end.
Proof.
  exact (antialias_backward_after_antialias Mock.plugin
           Mock.t1 Mock.t2 Mock.t3 Mock.t4 PyNone 2.5%float 41
           (mk_antialias_ctx Mock.t1 Mock.t2 Mock.t3 Mock.t4 2.5%float 42) eq_refl).
Defined.

(** X11.  [antialias] reaches the plugin exactly when [color], [rast],
    [pos] and [tri] are tensors and [topology_hash] is [None] or a
    [TopologyHashWrapper]; otherwise it raises [AssertionError] with no
    plugin call made.  With a hash supplied the only call is
    [antialias_fwd]: no topology hash is constructed. *)
Theorem antialias_validates_before_plugin `{Runtime} (h : handler)
    (color rast pos tri topology_hash : pyobj) (boost : float) :
  (trace h (antialias color rast pos tri topology_hash boost) <> [] <->
   forallb isinstance_Tensor [color; rast; pos; tri] = true /\
   (topology_hash = PyNone \/ isinstance_TopologyHashWrapper topology_hash = true)) /\
  (trace h (antialias color rast pos tri topology_hash boost) = [] ->
   antialias color rast pos tri topology_hash boost = Raise AssertionError) /\
  (forall th : TopologyHashWrapper,
     topology_hash = PyTopologyHash th ->
     forallb isinstance_Tensor [color; rast; pos; tri] = true ->
     trace h (antialias color rast pos tri topology_hash boost) =
       [plugin_antialias_fwd color rast pos tri (PyTopologyHash th)]).
Proof.
  unfold antialias, _antialias_func_forward, assert, call.
  destruct (forallb isinstance_Tensor [color; rast; pos; tri]); cbn [bind].
  - split; [|split].
    + split.
      * intros Ht. split; [reflexivity|].
        destruct topology_hash; cbn in Ht; try (now elim Ht); auto.
      * intros [_ [->|Hw]].
        -- cbn. now rewrite trace_Vis.
        -- destruct topology_hash; try discriminate. cbn. now rewrite trace_Vis.
    + destruct topology_hash; cbn; try reflexivity; rewrite trace_Vis; discriminate.
    + intros th -> _. cbn. rewrite trace_Vis.
      destruct (h _) as [e|[o wb]]; reflexivity.
  - split; [|split].
    + split; [intros Ht; now elim Ht|intros [Hf _]; discriminate].
    + reflexivity.
    + intros th _ Hf. discriminate.
Qed.

Lemma antialias_validates_before_plugin_witness :
  trace Mock.plugin
    (antialias Mock.t1 Mock.t2 Mock.t3 Mock.t4 (PyTopologyHash 5) 1%float) =
  [plugin_antialias_fwd Mock.t1 Mock.t2 Mock.t3 Mock.t4 (PyTopologyHash 5)].
Proof.
  apply (proj2 (proj2 (antialias_validates_before_plugin Mock.plugin
           Mock.t1 Mock.t2 Mock.t3 Mock.t4 (@PyTopologyHash Mock.runtime 5)
           1%float)) 5);
    reflexivity.
Defined.

(** ** Further properties of interpolate *)

Section InterpolateSuccess.
Context `{Runtime}.
Variable h : handler.

Lemma sanitize_diff_attrs_cases (diff_attrs : diff_attrs_arg) :
  (exists sel : diff_attrs_val, sanitize_diff_attrs diff_attrs = Ret sel) \/
  (exists e : exn,
     sanitize_diff_attrs diff_attrs = Raise e /\
     (e = AssertionError \/ e = OverflowError \/ e = ValueError)).
Proof.
  destruct diff_attrs as [| |ndim items|]; cbn.
  - left. now exists (SelList []).
  - left. now exists SelAll.
  - destruct (forallb fits_int32 items); cbn.
    + destruct (Nat.eqb ndim 1); cbn;
        [left; now exists (SelList items)|right; exists AssertionError; auto].
    + right. exists OverflowError. auto.
  - right. exists ValueError. auto.
Qed.

(** [interpolate] after its selection is known. *)
Lemma interpolate_unfold (attr rast tri rast_db : pyobj)
    (diff_attrs : diff_attrs_arg) (sel : diff_attrs_val) :
  sanitize_diff_attrs diff_attrs = Ret sel ->
  interpolate attr rast tri rast_db diff_attrs =
    (assert (forallb isinstance_Tensor [attr; rast; tri]) ;;
     (if truthy sel then assert (isinstance_Tensor rast_db) else Ret tt) ;;
     if truthy sel then
       _interpolate_func_da_apply attr rast tri rast_db
         (if is_all sel then 1 else 0)
         (match sel with SelAll => [] | SelList items => items end)
     else _interpolate_func_apply attr rast tri).
Proof. intros Hsel. unfold interpolate. rewrite Hsel. reflexivity. Qed.

(** What a successful call of [interpolate] went through. *)
Lemma interpolate_inr (attr rast tri rast_db : pyobj) (diff_attrs : diff_attrs_arg)
    (out out_da : Tensor) (node : interpolate_node) :
  result h (interpolate attr rast tri rast_db diff_attrs) = inr (out, out_da, node) ->
  exists sel : diff_attrs_val,
    sanitize_diff_attrs diff_attrs = Ret sel /\
    forallb isinstance_Tensor [attr; rast; tri] = true /\
    ((truthy sel = true /\ isinstance_Tensor rast_db = true /\
      h (plugin_interpolate_fwd_da attr rast tri rast_db
           (if is_all sel then 1 else 0)
           (match sel with SelAll => [] | SelList items => items end)) =
        inr (out, out_da) /\
      node = node_interpolate_func_da
               (mk_interpolate_da_ctx attr rast tri rast_db
                  (if is_all sel then 1 else 0)
                  (match sel with SelAll => [] | SelList items => items end))) \/
     (truthy sel = false /\
      h (plugin_interpolate_fwd attr rast tri) = inr (out, out_da) /\
      node = node_interpolate_func (mk_interpolate_ctx attr rast tri))).
Proof.
  destruct (sanitize_diff_attrs_cases diff_attrs) as [[sel Hsel]|[e [Hsel _]]].
  2:{ unfold interpolate. rewrite Hsel. discriminate. }
  rewrite (interpolate_unfold _ _ _ _ _ _ Hsel).
  unfold assert, _interpolate_func_da_apply, _interpolate_func_da_forward,
    _interpolate_func_apply, _interpolate_func_forward, call.
  destruct (forallb isinstance_Tensor [attr; rast; tri]); cbn [bind];
    [|discriminate].
  intros Hr. exists sel. split; [exact Hsel|]. split; [reflexivity|].
  destruct (truthy sel).
  - destruct (isinstance_Tensor rast_db); cbn [bind] in Hr; [|discriminate].
    rewrite result_Vis in Hr.
    destruct (h (plugin_interpolate_fwd_da _ _ _ _ _ _)) as [e|[o oda]] eqn:Hf;
      [discriminate|].
    cbn in Hr. rewrite result_Ret in Hr. injection Hr as <- <- <-.
    left. repeat split; reflexivity.
  - cbn [bind] in Hr. rewrite result_Vis in Hr.
    destruct (h (plugin_interpolate_fwd _ _ _)) as [e|[o oda]] eqn:Hf;
      [discriminate|].
    cbn in Hr. rewrite result_Ret in Hr. injection Hr as <- <- <-.
    right. repeat split; reflexivity.
Qed.

End InterpolateSuccess.

(** X12.  Whatever [interpolate] is called with, a call of the plugin's
    [interpolate_fwd_da] it makes carries a tensor [rast_db] and either
    the 'all' flag with an empty index list or no flag with a non-empty
    index list: never both a flag and indices, never neither. *)
Theorem interpolate_fwd_da_arguments `{Runtime} (h : handler)
    (attr rast tri rast_db : pyobj) (diff_attrs : diff_attrs_arg) :
  Forall interpolate_fwd_da_well_formed
    (trace h (interpolate attr rast tri rast_db diff_attrs)).
Proof.
  destruct (sanitize_diff_attrs_cases diff_attrs) as [[sel Hsel]|[e [Hsel _]]].
  2:{ unfold interpolate. rewrite Hsel. cbn [bind]. rewrite trace_Raise.
      constructor. }
  rewrite (interpolate_unfold _ _ _ _ _ _ Hsel).
  unfold assert, _interpolate_func_da_apply, _interpolate_func_da_forward,
    _interpolate_func_apply, _interpolate_func_forward, call.
  destruct (forallb isinstance_Tensor [attr; rast; tri]); cbn [bind];
    [|rewrite trace_Raise; constructor].
  destruct sel as [|[|i items]]; cbn [truthy is_all].
  - destruct (isinstance_Tensor rast_db) eqn:Hdb; cbn [bind];
      [|rewrite trace_Raise; constructor].
    rewrite trace_Vis. constructor.
    + cbn. split; [exact Hdb|]. left. now split.
    + destruct (h _) as [e|[o oda]]; cbn; rewrite ?trace_Ret; constructor.
  - cbn [bind]. rewrite trace_Vis. constructor; [exact I|].
    destruct (h _) as [e|[o oda]]; cbn; rewrite ?trace_Ret; constructor.
  - destruct (isinstance_Tensor rast_db) eqn:Hdb; cbn [bind];
      [|rewrite trace_Raise; constructor].
    rewrite trace_Vis. constructor.
    + cbn. split; [exact Hdb|]. right. split; [reflexivity|discriminate].
    + destruct (h _) as [e|[o oda]]; cbn; rewrite ?trace_Ret; constructor.
Qed.

(** X13.  The backward pass of the node a successful call of [interpolate]
    returned calls the gradient function of the variant that ran, on the
    call's tensors and with the flag and index list the forward pass sent.
    The variant with derivative output yields gradients for [attr], [rast]
    and [rast_db], the one without for [attr] and [rast]; [tri] gets none
    in either. *)
Theorem interpolate_backward_after_interpolate `{Runtime} (h : handler)
    (attr rast tri rast_db : pyobj) (diff_attrs : diff_attrs_arg)
    (out out_da : Tensor) (node : interpolate_node) (dy dda : pyobj) :
  result h (interpolate attr rast tri rast_db diff_attrs) = inr (out, out_da, node) ->
  match node with
  | node_interpolate_func_da ctx =>
      h (plugin_interpolate_fwd_da attr rast tri rast_db
           (ia_diff_attrs_all ctx) (ia_diff_attrs_list ctx)) = inr (out, out_da) /\
      result h (_interpolate_func_da_backward ctx dy dda) =
        match h (plugin_interpolate_grad_da attr rast tri dy rast_db dda
                   (ia_diff_attrs_all ctx) (ia_diff_attrs_list ctx)) with
        | inl e => inl e
        | inr (g_attr, g_rast, g_rast_db) =>
            inr (mk_interpolate_da_grads (Some g_attr) (Some g_rast) None
                   (Some g_rast_db) None None)
        end
  | node_interpolate_func ctx =>
      h (plugin_interpolate_fwd attr rast tri) = inr (out, out_da) /\
      result h (_interpolate_func_backward ctx dy) =
        match h (plugin_interpolate_grad attr rast tri dy) with
        | inl e => inl e
        | inr (g_attr, g_rast) =>
            inr (mk_interpolate_grads (Some g_attr) (Some g_rast) None)
        end
  end.
Proof.
  intros Hr. apply interpolate_inr in Hr.
  destruct Hr as [sel [_ [_ [[_ [_ [Hf ->]]]|[_ [Hf ->]]]]]]; cbn;
    (split; [exact Hf|]);
    unfold _interpolate_func_da_backward, _interpolate_func_backward, call;
    cbn; rewrite result_Vis.
  - destruct (h (plugin_interpolate_grad_da _ _ _ _ _ _ _ _))
      as [e|[[g_attr g_rast] g_rast_db]]; reflexivity.
  - destruct (h (plugin_interpolate_grad _ _ _ _)) as [e|[g_attr g_rast]];
      reflexivity.
Qed.

Lemma interpolate_backward_after_interpolate_witness :
  Mock.plugin (plugin_interpolate_fwd_da Mock.t1 Mock.t2 Mock.t3 Mock.t4 1 []) =
    inr (22, 23) /\
  result Mock.plugin
    (_interpolate_func_da_backward
       (mk_interpolate_da_ctx Mock.t1 Mock.t2 Mock.t3 Mock.t4 1 []) Mock.t1 Mock.t2) =
    inr (mk_interpolate_da_grads (Some 26) (Some 27) None (Some 28) None None).
Proof.
  exact (interpolate_backward_after_interpolate Mock.plugin
           Mock.t1 Mock.t2 Mock.t3 Mock.t4 DiffAll 22 23
           (node_interpolate_func_da
              (mk_interpolate_da_ctx Mock.t1 Mock.t2 Mock.t3 Mock.t4 1 []))
           Mock.t1 Mock.t2 eq_refl).
Defined.



(** ** Further properties of texture_construct_mip *)

(** X15.  For a [max_mip_level] that is absent or an integer,
    [texture_construct_mip] reaches the plugin exactly when [tex] is a
    tensor, [cube_mode] is a boolean and the level is absent or not
    negative; the one call it then makes passes -1 for an absent level and
    the level itself otherwise.  In every other case it raises
    [AssertionError] with no plugin call made. *)
Theorem texture_construct_mip_validates_before_plugin `{Runtime} (h : handler)
    (tex cube_mode : pyobj) (l : option Z) :
  (forall (cube : bool) (n : Z),
     isinstance_Tensor tex = true -> cube_mode = PyBool cube ->
     sanitize_max_mip_level l = Ret n ->
     texture_construct_mip tex l cube_mode =
       call (plugin_texture_construct_mip tex n cube) /\
     n = match l with None => -1 | Some z => z end /\ -1 <= n) /\
  (trace h (texture_construct_mip tex l cube_mode) <> [] ->
   isinstance_Tensor tex = true /\
   (exists cube : bool, cube_mode = PyBool cube) /\
   (forall z : Z, l = Some z -> 0 <= z)) /\
  (trace h (texture_construct_mip tex l cube_mode) = [] ->
   texture_construct_mip tex l cube_mode = Raise AssertionError).
Proof.
  unfold texture_construct_mip, assert_bool, assert.
  split; [|split].
  - intros cube n Htex -> Hn. rewrite Htex, Hn. cbn [bind].
    split; [reflexivity|].
    destruct (sanitize_max_mip_level_Ret _ _ Hn) as [[-> ->]|[-> Hv]];
      split; try reflexivity; lia.
  - destruct (isinstance_Tensor tex); cbn [bind]; [|intros Ht; now elim Ht].
    destruct cube_mode; cbn [bind]; try (intros Ht; now elim Ht).
    destruct (sanitize_max_mip_level_cases l) as [[n Hn]|Hn]; rewrite Hn;
      cbn [bind]; [|intros Ht; now elim Ht].
    intros _. split; [reflexivity|]. split; [now exists b|].
    intros z ->. destruct (sanitize_max_mip_level_Ret _ _ Hn) as [[E _]|[E Hv]];
      [discriminate|]. now injection E as ->.
  - destruct (isinstance_Tensor tex); cbn [bind]; [|reflexivity].
    destruct cube_mode; cbn [bind]; try reflexivity.
    destruct (sanitize_max_mip_level_cases l) as [[n Hn]|Hn]; rewrite Hn;
      cbn [bind]; [|reflexivity].
    unfold call. rewrite trace_Vis. discriminate.
Qed.

Lemma texture_construct_mip_validates_before_plugin_witness :
  texture_construct_mip Mock.t1 None (PyBool true) =
    call (plugin_texture_construct_mip Mock.t1 (-1) true) /\
  (-1) = (-1) /\ -1 <= -1.
Proof.
  apply (proj1 (texture_construct_mip_validates_before_plugin Mock.plugin
                  Mock.t1 (PyBool true) None) true (-1));
    reflexivity.
Defined.
